(** * The Elasticsearch 5 backend of django-haystack-elasticsearch

    A shallow embedding of [haystack_elasticsearch/elasticsearch5.py]:
    the request compiler ([_build_search_kwargs_*]), the response decoder
    ([_process_results]), the similarity query ([more_like_this]) and the
    bulk deletion ([clear]), followed by the properties of the
    specification that concern them.

    Python values are embedded in one universe [pyval]; Python exceptions
    are the alternative [Raise] of [result]; the methods that talk to the
    engine or change the backend object run in the state-and-exception
    monad [M] over the pair of the backend's fields and the engine's state.
    Comparison and formatting follow Python 3. A string is the sequence of
    its UTF-8 bytes; for ASCII text these are its code points, and the
    operations that act on code points ([str.lower]) are embedded on ASCII
    text only. *)

From Stdlib Require Import String Ascii ZArith List Bool Lia DecimalString.
From Stdlib Require Import Sorting.Permutation Sorting.Sorted.
From Stdlib Require Import Floats.PrimFloat Floats.FloatOps Floats.SpecFloat.
Import ListNotations.

Local Open Scope string_scope.
Local Open Scope Z_scope.

(** ** Python values *)

(** [datetime.datetime] objects, by their fields. *)
Record datetime : Set := mkDatetime {
  dt_year : Z; dt_month : Z; dt_day : Z;
  dt_hour : Z; dt_minute : Z; dt_second : Z; dt_microsecond : Z }.

(** The values the backend handles: JSON documents sent to and received
    from the engine, plus tuples and datetimes built by the decoder. A
    [dict] keeps its items in insertion order; every key used by the
    backend is a string. *)
#[warnings="-register-all"]
Inductive pyval : Type :=
| PNone
| PBool (b : bool)
| PInt (z : Z)
| PFloat (f : float)
| PStr (s : string)
| PList (l : list pyval)
| PTuple (l : list pyval)
| PDict (d : list (string * pyval))
| PDatetime (d : datetime).

Definition pydict : Type := list (string * pyval).

(** ** Exceptions and the error monad *)

(** The Python exceptions that the modelled code can meet.
    [TransportError status info] stands for [elasticsearch.TransportError]
    and its subclasses ([NotFoundError] is status 404). [NotModelled] marks
    an operation on values outside the fragment of Python that is embedded
    (the [str()] of a container, the ordering of two lists). *)
Inductive exn : Type :=
| KeyError (key : string)
| TypeError (what : string)
| AttributeError (what : string)
| UnboundLocalError (name : string)
| AssertionError
| ValueError (what : string)
| OverflowError (what : string)
| ZeroDivisionError
| TransportError (status : Z) (info : string)
| OtherError (name : string)
| NotModelled (what : string).

Inductive result (A : Type) : Type :=
| Ok (a : A)
| Raise (e : exn).
Arguments Ok {A} a.
Arguments Raise {A} e.

Definition rbind {A B} (r : result A) (k : A -> result B) : result B :=
  match r with
  | Ok a => k a
  | Raise e => Raise e
  end.

Declare Scope result_scope.
Delimit Scope result_scope with result.
Notation "x <- c ;; k" := (rbind c (fun x => k))
  (at level 61, c at next level, right associativity) : result_scope.
Notation "' p <- c ;; k" := (rbind c (fun x => let p := x in k))
  (at level 61, p pattern, c at next level, right associativity) : result_scope.

Fixpoint rmap {A B} (f : A -> result B) (l : list A) : result (list B) :=
  match l with
  | [] => Ok []
  | a :: l' =>
      rbind (f a) (fun b => rbind (rmap f l') (fun bs => Ok (b :: bs)))
  end.

Fixpoint rfold {A S} (step : S -> A -> result S) (l : list A) (s : S) : result S :=
  match l with
  | [] => Ok s
  | a :: l' => rbind (step s a) (fun s' => rfold step l' s')
  end.

(** ** Dictionaries *)

Fixpoint dict_get (d : pydict) (k : string) : option pyval :=
  match d with
  | [] => None
  | (k', v) :: d' => if String.eqb k k' then Some v else dict_get d' k
  end.

(** [d[k] = v]: an existing key keeps its place, a new key goes last. *)
Fixpoint dict_set (d : pydict) (k : string) (v : pyval) : pydict :=
  match d with
  | [] => [(k, v)]
  | (k', v') :: d' =>
      if String.eqb k k' then (k, v) :: d' else (k', v') :: dict_set d' k v
  end.

Fixpoint dict_del (d : pydict) (k : string) : pydict :=
  match d with
  | [] => []
  | (k', v') :: d' =>
      if String.eqb k k' then d' else (k', v') :: dict_del d' k
  end.

Definition dict_has (d : pydict) (k : string) : bool :=
  match dict_get d k with Some _ => true | None => false end.

(** [d.update(e)] *)
Definition dict_update (d e : pydict) : pydict :=
  fold_left (fun acc kv => dict_set acc (fst kv) (snd kv)) e d.

(** [d.get(k, default)] *)
Definition dict_get_default (d : pydict) (k : string) (default : pyval) : pyval :=
  match dict_get d k with Some v => v | None => default end.

(** [v[k]] for a string [k]: only a dict can be indexed by a string. *)
Definition getitem (v : pyval) (k : string) : result pyval :=
  match v with
  | PDict d =>
      match dict_get d k with
      | Some x => Ok x
      | None => Raise (KeyError k)
      end
  | _ => Raise (TypeError "indices must be integers or object is not subscriptable")
  end.

(** [v[k] = x] *)
Definition setitem (v : pyval) (k : string) (x : pyval) : result pyval :=
  match v with
  | PDict d => Ok (PDict (dict_set d k x))
  | _ => Raise (TypeError "object does not support item assignment")
  end.

(** [v.get(k, default)]: of the values here only a dict has [get]. *)
Definition py_get (v : pyval) (k : string) (default : pyval) : result pyval :=
  match v with
  | PDict d => Ok (dict_get_default d k default)
  | _ => Raise (AttributeError "get")
  end.

(** Truth value of an object, as tested by [if]. *)
Definition truthy (v : pyval) : bool :=
  match v with
  | PNone => false
  | PBool b => b
  | PInt z => negb (z =? 0)
  | PFloat f => negb (PrimFloat.eqb f 0%float)
  | PStr s => negb (String.eqb s EmptyString)
  | PList l | PTuple l => match l with [] => false | _ => true end
  | PDict d => match d with [] => false | _ => true end
  | PDatetime _ => true
  end.

(** [v == s] for a string literal [s]. *)
Definition eq_str (v : pyval) (s : string) : bool :=
  match v with
  | PStr s' => String.eqb s' s
  | _ => false
  end.

(** [s in v] for a string [s]: key of a dict, element of a list or tuple,
    substring of a string. *)
Definition py_in (s : string) (v : pyval) : result bool :=
  match v with
  | PDict d => Ok (dict_has d s)
  | PList l | PTuple l => Ok (existsb (fun x => eq_str x s) l)
  | PStr t => Ok (match String.index 0 s t with Some _ => true | None => false end)
  | _ => Raise (TypeError "argument is not iterable")
  end.

(** Iteration over [v], as a [for] loop or a comprehension does it: a dict
    yields its keys, a string its characters. *)
Fixpoint chars (s : string) : list pyval :=
  match s with
  | EmptyString => []
  | String c s' => PStr (String c EmptyString) :: chars s'
  end.

Definition py_iter (v : pyval) : result (list pyval) :=
  match v with
  | PList l | PTuple l => Ok l
  | PDict d => Ok (map (fun kv => PStr (fst kv)) d)
  | PStr s => Ok (chars s)
  | _ => Raise (TypeError "object is not iterable")
  end.


(** [v.items()] *)
Definition py_items (v : pyval) : result pydict :=
  match v with
  | PDict d => Ok d
  | _ => Raise (AttributeError "items")
  end.

(** [v.pop(k)] and [v.pop(k, default)] for a string [k]: the value removed
    and the object afterwards. A list has [pop] too, but takes one index. *)
Definition py_pop (v : pyval) (k : string) : result (pyval * pyval) :=
  match v with
  | PDict d =>
      match dict_get d k with
      | Some x => Ok (x, PDict (dict_del d k))
      | None => Raise (KeyError k)
      end
  | PList _ => Raise (TypeError "'str' object cannot be interpreted as an integer")
  | _ => Raise (AttributeError "pop")
  end.

Definition py_pop_default (v : pyval) (k : string) (default : pyval)
  : result (pyval * pyval) :=
  match v with
  | PDict d =>
      match dict_get d k with
      | Some x => Ok (x, PDict (dict_del d k))
      | None => Ok (default, v)
      end
  | PList _ => Raise (TypeError "pop expected at most 1 argument, got 2")
  | _ => Raise (AttributeError "pop")
  end.

(** [d.update(v)], for [v] a dict. *)
Definition py_update (d : pydict) (v : pyval) : result pydict :=
  match v with
  | PDict e => Ok (dict_update d e)
  | PList [] | PTuple [] | PStr EmptyString => Ok d
  | PList _ | PTuple _ | PStr _ =>
      Raise (NotModelled "dict.update from a sequence of pairs")
  | _ => Raise (TypeError "object is not iterable")
  end.

(** ** Strings *)

(** ASCII text: every byte is below 128, so that the bytes of the string
    are its code points. *)
Definition is_ascii_char (c : ascii) : bool := (nat_of_ascii c <? 128)%nat.

Fixpoint is_ascii (s : string) : bool :=
  match s with
  | EmptyString => true
  | String c s' => is_ascii_char c && is_ascii s'
  end.

(** [str.lower] on ASCII text: the letters A to Z go to a to z, every
    other character stays. *)
Definition lower_ascii (c : ascii) : ascii :=
  let n := nat_of_ascii c in
  if ((65 <=? n) && (n <=? 90))%nat then ascii_of_nat (n + 32) else c.

Fixpoint lower (s : string) : string :=
  match s with
  | EmptyString => EmptyString
  | String c s' => String (lower_ascii c) (lower s')
  end.

(** [v.lower()]. Python lowers code points by the Unicode tables; the
    embedding covers ASCII text, where a character is one byte. *)
Definition py_lower (v : pyval) : result string :=
  match v with
  | PStr s =>
      if is_ascii s then Ok (lower s)
      else Raise (NotModelled "lower of a string that is not ASCII")
  | _ => Raise (AttributeError "lower")
  end.

(** [sep.join(l)] *)
Definition join (sep : string) (l : list string) : string := String.concat sep l.

(** The decimal writing of an integer, as [str] and [%s] print it. *)
Definition str_of_Z (z : Z) : string := NilZero.string_of_int (Z.to_int z).

(** [str(v)], which [%s] applies to its argument. *)
Definition py_str (v : pyval) : result string :=
  match v with
  | PNone => Ok "None"
  | PBool true => Ok "True"
  | PBool false => Ok "False"
  | PInt z => Ok (str_of_Z z)
  | PStr s => Ok s
  | PFloat _ => Raise (NotModelled "str of a float")
  | PList _ | PTuple _ | PDict _ => Raise (NotModelled "str of a container")
  | PDatetime _ => Raise (NotModelled "str of a datetime")
  end.

(** ** Numbers *)

(** [float(z)] for the small literals of the code. *)
Definition float_of_Z (z : Z) : float :=
  SF2Prim (binary_normalize prec emax z 0 false).

(** [v == z] for an integer literal [z]: [bool] is a subclass of [int],
    and a float equals an integer of the same value. *)
Definition eq_int (v : pyval) (z : Z) : bool :=
  match v with
  | PInt z' => z' =? z
  | PBool b => (if b then 1 else 0) =? z
  | PFloat f => PrimFloat.eqb f (float_of_Z z)
  | _ => false
  end.

(** [a / b] on integers under [from __future__ import division]: the
    quotient rounded once to the nearest double, ties to even;
    [OverflowError] when it is too large for a double. *)
Definition int_true_div (a b : Z) : result float :=
  if b =? 0 then Raise ZeroDivisionError
  else
    let negate := xorb (a <? 0) (b <? 0) in
    if a =? 0 then Ok (SF2Prim (S754_zero negate))
    else
      let '(mz, ez, lz) := SFdiv_core_binary prec emax (Z.abs a) 0 (Z.abs b) 0 in
      match binary_round_aux prec emax negate mz ez lz with
      | S754_infinity _ =>
          Raise (OverflowError "integer division result too large for a float")
      | q => Ok (SF2Prim q)
      end.

(** [v / z] for an integer literal [z]. *)
Definition py_truediv_int (v : pyval) (z : Z) : result float :=
  match v with
  | PInt a => int_true_div a z
  | PBool b => int_true_div (if b then 1 else 0) z
  | PFloat f =>
      if z =? 0 then Raise ZeroDivisionError
      else Ok (PrimFloat.div f (float_of_Z z))
  | _ => Raise (TypeError "unsupported operand type(s) for /")
  end.

(** [a < b], as [sorted] asks it of two keys. Integers (and bools) are
    ordered as numbers, strings by code point; ordering two floats uses the
    IEEE comparison. *)
Definition py_lt (a b : pyval) : result bool :=
  match a, b with
  | PInt x, PInt y => Ok (x <? y)
  | PInt x, PBool y => Ok (x <? (if y then 1 else 0))
  | PBool x, PInt y => Ok ((if x then 1 else 0) <? y)
  | PBool x, PBool y => Ok ((if x then 1 else 0) <? (if y then 1 else 0))
  | PFloat x, PFloat y => Ok (PrimFloat.ltb x y)
  | PStr x, PStr y => Ok (String.ltb x y)
  | PFloat _, (PInt _ | PBool _) | (PInt _ | PBool _), PFloat _ =>
      Raise (NotModelled "ordering an int and a float")
  | PList _, PList _ | PTuple _, PTuple _ =>
      Raise (NotModelled "ordering two sequences")
  | PDatetime _, PDatetime _ => Raise (NotModelled "ordering two datetimes")
  | _, _ => Raise (TypeError "'<' not supported between instances")
  end.

(** ** Sorting *)

(** [sorted] is stable: an element is put before the first of the later
    elements that is not smaller than it. *)
Fixpoint insert_by {A} (lt : A -> A -> result bool) (x : A) (l : list A)
  : result (list A) :=
  match l with
  | [] => Ok [x]
  | y :: l' =>
      rbind (lt y x) (fun b =>
        if b then rbind (insert_by lt x l') (fun r => Ok (y :: r))
        else Ok (x :: y :: l'))
  end.

Fixpoint sort_by {A} (lt : A -> A -> result bool) (l : list A) : result (list A) :=
  match l with
  | [] => Ok []
  | x :: l' => rbind (sort_by lt l') (insert_by lt x)
  end.

(** [sorted(l, key=key)]: the keys are computed first, then compared. *)
Definition py_sorted (key : pyval -> result pyval) (l : list pyval)
  : result (list pyval) :=
  rbind (rmap (fun x => rbind (key x) (fun k => Ok (k, x))) l) (fun kl =>
  rbind (sort_by (fun a b => py_lt (fst a) (fst b)) kl) (fun sl =>
  Ok (map snd sl))).

(** [sorted(l)] for a list of strings. *)
Fixpoint insert_string (x : string) (l : list string) : list string :=
  match l with
  | [] => [x]
  | y :: l' => if String.ltb y x then y :: insert_string x l' else x :: y :: l'
  end.

Definition sorted_strings (l : list string) : list string :=
  fold_right insert_string [] l.

(** [x[i]] for a tuple or list [x] and a literal index [i >= 0]. *)
Definition getindex (x : pyval) (i : nat) : result pyval :=
  match x with
  | PTuple l | PList l =>
      match nth_error l i with
      | Some v => Ok v
      | None => Raise (OtherError "IndexError")
      end
  | PStr s =>
      match String.get i s with
      | Some c => Ok (PStr (String c EmptyString))
      | None => Raise (OtherError "IndexError")
      end
  | PDict d => Raise (KeyError (str_of_Z (Z.of_nat i)))
  | _ => Raise (TypeError "object is not subscriptable")
  end.

(** ** Collaborators *)

(** What the backend takes from haystack, Django and the standard library.
    None of it is code of this module; the model is parametric in it. *)
Class Haystack : Type := {
  (** Django model classes and their instances *)
  model : Type;
  instance : Type;
  (** [model_instance._meta.concrete_model] *)
  concrete_model : instance -> model;
  (** [haystack.utils.get_model_ct] and [get_identifier] *)
  get_model_ct : model -> string;
  get_identifier : instance -> string;
  (** [connections[alias].get_unified_index().get_index(m).get_content_field()];
      [get_index] raises [NotHandled] for a model without an index *)
  get_content_field : string -> model -> result string;
  (** [connections[alias].get_unified_index().get_facet_fieldname(f)] *)
  get_facet_fieldname : string -> string -> string;
  (** [self.build_models_list()], from the routers *)
  build_models_list : list string;
  (** [settings.HAYSTACK_LIMIT_TO_REGISTERED_MODELS], when it is set *)
  HAYSTACK_LIMIT_TO_REGISTERED_MODELS : option bool;
  (** [self._from_python] of the generic backend *)
  _from_python : pyval -> pyval;
  (** [datetime.datetime.utcfromtimestamp] *)
  utcfromtimestamp : float -> result datetime;
  (** [_process_results] of the generic backend, which decodes the hits:
      [raw_results], [highlight], [result_class], [distance_point],
      [geo_sort] *)
  base_process_results : pyval -> pyval -> pyval -> pyval -> pyval -> result pyval
}.

(** [haystack.constants.DJANGO_CT] *)
Definition DJANGO_CT : string := "django_ct".

(** ** Request compiler *)

Module Compiler.

Local Open Scope result_scope.

Section WithHaystack.
Context {H : Haystack}.

(** [_build_search_filters_narrow_query] *)
Definition _build_search_filters_narrow_query (q : pyval) : pyval :=
  PDict [("query_string", PDict [("query", q)])].

(** [_build_search_kwargs_query]. The local [result] is bound only inside
    [if filters:]; the [return result] after it finds the name unbound
    when the list is empty. *)
Definition _build_search_kwargs_query (filters : list pyval) (query : pyval)
  : result pyval :=
  let result : option pyval :=
    if truthy (PList filters) then
      let result := [("must", query)] in
      if (Z.of_nat (length filters) =? 1) then
        Some (PDict [("bool", PDict (dict_set result "filter" (nth 0 filters PNone)))])
      else
        Some (PDict [("bool", PDict (dict_set result "filter"
                       (PDict [("bool", PDict [("must", PList filters)])])))])
    else None in
  match result with
  | Some r => Ok r
  | None => Raise (UnboundLocalError "result")
  end.

(** The body of the loop over [facets.items()]: the aggregation clause of
    one terms facet, and [extra_options] as the [pop]s leave it. *)
Definition terms_facet_options (alias facet_fieldname : string)
    (extra_options : pyval) : result (pyval * pyval) :=
  let meta := [("_type", PStr "terms")] in
  let terms := [("field", PStr (get_facet_fieldname alias facet_fieldname))] in
  has_order <- py_in "order" extra_options ;;
  ' (meta, extra_options) <-
      (if has_order : bool then
         ' (o, extra_options) <- py_pop extra_options "order" ;;
         Ok (dict_set meta "order" o, extra_options)
       else Ok (meta, extra_options)) ;;
  let facet_options := [("meta", PDict meta); ("terms", PDict terms)] in
  ' (global_scope, extra_options) <-
      py_pop_default extra_options "global_scope" (PBool false) ;;
  let facet_options :=
    if truthy global_scope then dict_set facet_options "global" (PBool true)
    else facet_options in
  has_filter <- py_in "facet_filter" extra_options ;;
  ' (facet_options, extra_options) <-
      (if has_filter : bool then
         ' (f, extra_options) <- py_pop extra_options "facet_filter" ;;
         Ok (dict_set facet_options "facet_filter" f, extra_options)
       else Ok (facet_options, extra_options)) ;;
  terms <- py_update terms extra_options ;;
  Ok (PDict (dict_set facet_options "terms" (PDict terms)), extra_options).

(** The interval of a date facet: [gap_by] lowercased, and the amount put
    before its first letter when the amount is not 1 and the unit is
    neither month nor year. [interval] is ASCII text when [py_lower]
    returns it, so that [interval[:1]] is its first byte. *)
Definition date_facet_interval (value : pyval) : result string :=
  gap_by <- py_get value "gap_by" PNone ;;
  interval <- py_lower gap_by ;;
  gap_amount <- py_get value "gap_amount" (PInt 1) ;;
  if negb (eq_int gap_amount 1)
     && negb (String.eqb interval "month" || String.eqb interval "year")
  then
    amount <- getitem value "gap_amount" ;;
    amount <- py_str amount ;;
    Ok (amount ++ String.substring 0 1 interval)%string
  else Ok interval.

(** The body of the loop over [date_facets.items()]. *)
Definition date_facet_options (facet_fieldname : string) (value : pyval)
  : result pyval :=
  interval <- date_facet_interval value ;;
  start_date <- py_get value "start_date" PNone ;;
  end_date <- py_get value "end_date" PNone ;;
  Ok (PDict [
    ("meta", PDict [("_type", PStr "date_histogram")]);
    ("date_histogram", PDict [
       ("field", PStr facet_fieldname);
       ("interval", PStr interval)]);
    ("aggs", PDict [
       (facet_fieldname, PDict [
          ("date_range", PDict [
             ("field", PStr facet_fieldname);
             ("ranges", PList [PDict [
                ("from", _from_python start_date);
                ("to", _from_python end_date)]])])])])]).

(** The body of the loop over [query_facets]. *)
Definition query_facet_options (value : pyval) : pyval :=
  PDict [
    ("meta", PDict [("_type", PStr "query")]);
    ("filter", PDict [("query_string", PDict [("query", value)])])].

(** [_build_search_kwargs_facets]: the pair [('aggs', result)], and the
    [facets] argument as the call leaves it (the loop pops the special
    options out of the caller's dictionaries). *)
Definition _build_search_kwargs_facets (alias : string)
    (facets date_facets : option pydict)
    (query_facets : option (list (string * pyval)))
  : result ((string * pydict) * option pydict) :=
  let result : pydict := [] in
  ' (result, facets) <-
      match facets with
      | Some items =>
          ' (result, items') <-
            rfold (fun '(result, items') '(facet_fieldname, extra_options) =>
                     ' (facet_options, extra_options) <-
                        terms_facet_options alias facet_fieldname extra_options ;;
                     Ok (dict_set result facet_fieldname facet_options,
                         dict_set items' facet_fieldname extra_options))
                  items (result, items) ;;
          Ok (result, Some items')
      | None => Ok (result, None)
      end ;;
  result <-
      match date_facets with
      | Some items =>
          rfold (fun result '(facet_fieldname, value) =>
                   facet_options <- date_facet_options facet_fieldname value ;;
                   Ok (dict_set result facet_fieldname facet_options))
                items result
      | None => Ok result
      end ;;
  let result :=
      match query_facets with
      | Some items =>
          fold_left (fun result '(facet_fieldname, value) =>
                       dict_set result facet_fieldname (query_facet_options value))
                    items result
      | None => result
      end in
  Ok (("aggs", result), facets).

End WithHaystack.
End Compiler.

(** ** Response decoder *)

Module Decoder.

Local Open Scope result_scope.

Section WithHaystack.
Context {H : Haystack}.

(** [facets[outer][name] = v] *)
Definition set_in (facets : pydict) (outer name : string) (v : pyval)
  : result pydict :=
  sub <- getitem (PDict facets) outer ;;
  sub <- setitem sub name v ;;
  Ok (dict_set facets outer sub).

(** [facets[outer][name]] *)
Definition get_in (facets : pydict) (outer name : string) : result pyval :=
  sub <- getitem (PDict facets) outer ;;
  getitem sub name.

(** [(individual['key'], individual['doc_count'])] *)
Definition terms_pair (individual : pyval) : result pyval :=
  key <- getitem individual "key" ;;
  doc_count <- getitem individual "doc_count" ;;
  Ok (PTuple [key; doc_count]).

(** [(datetime.datetime.utcfromtimestamp(individual['key'] / 1000),
      individual['doc_count'])] *)
Definition date_pair (individual : pyval) : result pyval :=
  key <- getitem individual "key" ;;
  seconds <- py_truediv_int key 1000 ;;
  stamp <- utcfromtimestamp seconds ;;
  doc_count <- getitem individual "doc_count" ;;
  Ok (PTuple [PDatetime stamp; doc_count]).

(** The body of the loop over [raw_results['aggregations'].items()]. *)
Definition decode_facet (facets : pydict) (facet_fieldname : string)
    (facet_info : pyval) : result pydict :=
  meta <- getitem facet_info "meta" ;;
  facet_type <- getitem meta "_type" ;;
  if eq_str facet_type "terms" then
    buckets <- getitem facet_info "buckets" ;;
    buckets <- py_iter buckets ;;
    pairs <- rmap terms_pair buckets ;;
    facets <- set_in facets "fields" facet_fieldname (PList pairs) ;;
    meta <- getitem facet_info "meta" ;;
    has_order <- py_in "order" meta ;;
    if has_order : bool then
      meta <- getitem facet_info "meta" ;;
      order <- getitem meta "order" ;;
      if eq_str order "reverse_count" then
        current <- get_in facets "fields" facet_fieldname ;;
        current <- py_iter current ;;
        srt <- py_sorted (fun x => getindex x 1) current ;;
        set_in facets "fields" facet_fieldname (PList srt)
      else Ok facets
    else Ok facets
  else if eq_str facet_type "date_histogram" then
    buckets <- getitem facet_info "buckets" ;;
    buckets <- py_iter buckets ;;
    pairs <- rmap date_pair buckets ;;
    set_in facets "dates" facet_fieldname (PList pairs)
  else if eq_str facet_type "query" then
    doc_count <- getitem facet_info "doc_count" ;;
    set_in facets "queries" facet_fieldname doc_count
  else Ok facets.

(** The facets of [_process_results]: from [facets = {}] up to the
    assignment [results['facets'] = facets]. *)
Definition decode_facets (raw_results : pyval) : result pydict :=
  let facets : pydict := [] in
  has_aggregations <- py_in "aggregations" raw_results ;;
  if has_aggregations : bool then
    let facets := [("fields", PDict []); ("dates", PDict []); ("queries", PDict [])] in
    aggregations <- getitem raw_results "aggregations" ;;
    items <- py_items aggregations ;;
    rfold (fun facets '(facet_fieldname, facet_info) =>
             decode_facet facets facet_fieldname facet_info)
          items facets
  else Ok facets.

(** [_process_results] *)
Definition _process_results (raw_results highlight result_class
    distance_point geo_sort : pyval) : result pyval :=
  results <- base_process_results raw_results highlight result_class
               distance_point geo_sort ;;
  facets <- decode_facets raw_results ;;
  setitem results "facets" (PDict facets).

End WithHaystack.
End Decoder.

(** ** The backend object and the engine *)

(** The fields of the backend that the two entry points read or write. *)
Record backend : Type := mkBackend {
  connection_alias : string;
  index_name : string;
  silently_fail : bool;
  setup_complete : bool;
  existing_mapping : pydict;
  content_field_name : pyval }.

(** A call of [self.log.error(msg, *args, exc_info=True)] inside an
    [except ... as e] block. *)
Record log_record : Type := mkLog {
  log_msg : string;
  log_args : list pyval;
  log_exc : exn }.

(** A generator over documents: nothing is asked of the engine until it is
    consumed; consuming it yields the documents or raises, and may change
    the engine's state (scroll contexts). The documents are taken as one
    batch. *)
Definition generator (server : Type) : Type :=
  server -> server * result (list pyval).

(** The client library ([self.conn], [scan], [bulk]) and the [setup] of the
    generic backend, acting on the state of the engine. *)
Class Engine : Type := {
  server : Type;
  (** [self.conn.search(body=, index=, doc_type=, **kwargs)] *)
  es_search : pyval -> string -> string -> pydict -> server -> server * result pyval;
  (** [self.conn.indices.delete(index=, ignore=)] *)
  es_indices_delete : string -> list Z -> server -> server * result pyval;
  (** [self.conn.indices.refresh(index=)] *)
  es_indices_refresh : string -> server -> server * result pyval;
  (** [scan(self.conn, query=, index=, doc_type=)] *)
  es_scan : pyval -> string -> string -> generator server;
  (** [bulk(self.conn, actions=, index=, doc_type=)] *)
  es_bulk : generator server -> string -> string -> server -> server * result pyval;
  (** [self.setup()] *)
  base_setup : backend -> server -> (backend * server) * result unit
}.

Record world {E : Engine} : Type := mkWorld {
  self : backend;
  conn : server;
  logged : list log_record }.

(** State and exceptions: a raised exception keeps the state reached. *)
Definition M {E : Engine} (A : Type) : Type := world -> world * result A.

Module MonadM.
Section WithEngine.
Context {E : Engine}.

Definition ret {A} (a : A) : M A := fun w => (w, Ok a).

Definition raise {A} (e : exn) : M A := fun w => (w, Raise e).

Definition bind {A B} (m : M A) (k : A -> M B) : M B :=
  fun w =>
    match m w with
    | (w', Ok a) => k a w'
    | (w', Raise e) => (w', Raise e)
    end.

(** [try: m  except: handler] *)
Definition try_except {A} (m : M A) (handler : exn -> M A) : M A :=
  fun w =>
    match m w with
    | (w', Ok a) => (w', Ok a)
    | (w', Raise e) => handler e w'
    end.

Definition lift {A} (r : result A) : M A := fun w => (w, r).

Definition get_self : M backend := fun w => (w, Ok (self w)).

Definition set_self (b : backend) : M unit :=
  fun w => (mkWorld E b (conn w) (logged w), Ok tt).

(** A request to the engine. *)
Definition request {A} (op : server -> server * result A) : M A :=
  fun w =>
    let '(s, r) := op (conn w) in
    (mkWorld E (self w) s (logged w), r).

(** [self.log.error(msg, *args, exc_info=True)] *)
Definition log_error (msg : string) (args : list pyval) (e : exn) : M unit :=
  fun w => (mkWorld E (self w) (conn w) (logged w ++ [mkLog msg args e]), Ok tt).

(** [self.setup()] *)
Definition run_setup : M unit :=
  fun w =>
    let '((b, s), r) := base_setup (self w) (conn w) in
    (mkWorld E b s (logged w), r).

End WithEngine.
End MonadM.

Declare Scope M_scope.
Delimit Scope M_scope with M.
Notation "x <- c ;; k" := (MonadM.bind c (fun x => k))
  (at level 61, c at next level, right associativity) : M_scope.
Notation "c ;;; k" := (MonadM.bind c (fun _ => k))
  (at level 61, right associativity) : M_scope.

(** [except elasticsearch.TransportError] catches the class and its
    subclasses. *)
Definition is_TransportError (e : exn) : bool :=
  match e with
  | TransportError _ _ => true
  | _ => false
  end.

(** ** Similarity query and bulk deletion *)

Module Backend.

Import MonadM.


Section WithCollaborators.
Context {H : Haystack} {E : Engine}.

(** The entity types of the restriction in [more_like_this]: the explicit
    models when there are some, else the registered ones when the policy
    holds, else none. *)
Definition model_choices (models : option (list model))
    (limit_to_registered_models : option bool) : list string :=
  let limit_to_registered_models :=
    match limit_to_registered_models with
    | None =>
        match HAYSTACK_LIMIT_TO_REGISTERED_MODELS with
        | Some b => b
        | None => true
        end
    | Some b => b
    end in
  match models with
  | Some ((_ :: _) as models) => sorted_strings (map get_model_ct models)
  | _ => if limit_to_registered_models then build_models_list else []
  end.

(** The narrowing queries that [more_like_this] accumulates. *)
Definition narrow_queries (additional_query_string : option string)
    (models : option (list model)) (limit_to_registered_models : option bool)
  : list pyval :=
  let narrow_queries : list pyval := [] in
  let narrow_queries :=
    match additional_query_string with
    | Some s =>
        if truthy (PStr s) && negb (String.eqb s "*:*") then
          (narrow_queries ++ [PDict [("query_string", PDict [("query", PStr s)])]])%list
        else narrow_queries
    | None => narrow_queries
    end in
  let model_choices := model_choices models limit_to_registered_models in
  if 0 <? Z.of_nat (length model_choices) then
    (narrow_queries
       ++ [PDict [("terms", PDict [(DJANGO_CT, PList (map PStr model_choices))])]])%list
  else narrow_queries.

(** The body that [more_like_this] sends to the engine. *)
Definition mlt_query (field_name doc_id : string)
    (additional_query_string : option string)
    (models : option (list model)) (limit_to_registered_models : option bool)
  : pyval :=
  let mlt_query : pydict :=
    [("query", PDict [("more_like_this", PDict [
        ("fields", PList [PStr field_name]);
        ("like", PList [PDict [("_id", PStr doc_id)]])])])] in
  let narrow_queries :=
    narrow_queries additional_query_string models limit_to_registered_models in
  if 0 <? Z.of_nat (length narrow_queries) then
    PDict [("query", PDict [("bool", PDict [
       ("must", dict_get_default mlt_query "query" PNone);
       ("filter", PDict [("bool", PDict [("must", PList narrow_queries)])])])])]
  else PDict mlt_query.

(** The [params] of the search: [from_] and [size]. *)
Definition mlt_params (start_offset end_offset : option Z) : result pydict :=
  let params : pydict := [] in
  let params :=
    match start_offset with
    | Some s => dict_set params "from_" (PInt s)
    | None => params
    end in
  match end_offset with
  | Some e =>
      match start_offset with
      | Some s => Ok (dict_set params "size" (PInt (e - s)))
      | None => Raise (TypeError "unsupported operand type(s) for -: 'int' and 'NoneType'")
      end
  | None => Ok params
  end.

Local Open Scope M_scope.

(** [if not self.setup_complete: self.setup()] *)
Definition ensure_setup : M unit :=
  this <- get_self ;;
  if negb (setup_complete this) then run_setup else ret tt.

(** [more_like_this] *)
Definition more_like_this (model_instance : instance)
    (additional_query_string : option string)
    (start_offset end_offset : option Z)
    (models : option (list model)) (limit_to_registered_models : option bool)
    (result_class : pyval) : M pyval :=
  ensure_setup ;;;
  this <- get_self ;;
  let model_klass := concrete_model model_instance in
  field_name <- lift (get_content_field (connection_alias this) model_klass) ;;
  params <- lift (mlt_params start_offset end_offset) ;;
  let doc_id := get_identifier model_instance in
  raw_results <-
    try_except
      (let mlt_query := mlt_query field_name doc_id additional_query_string
                          models limit_to_registered_models in
       request (es_search mlt_query (index_name this) "modelresult"
                  (("_source", PBool true) :: params)))
      (fun e =>
         if is_TransportError e then
           this <- get_self ;;
           if negb (silently_fail this) then raise e
           else
             log_error
               "Failed to fetch More Like This from Elasticsearch for document '%s': %s"
               [PStr doc_id] e ;;;
             ret (PDict [])
         else raise e) ;;
  lift (Decoder._process_results raw_results (PBool false) result_class
          PNone (PBool false)).

(** The identifier tags of the models to delete. *)
Definition models_to_delete (models : list model) : list string :=
  map (fun model => (DJANGO_CT ++ ":" ++ get_model_ct model)%string) models.

(** The generator expression of [clear]: a delete action per document. *)
Definition delete_actions (g : generator server) : generator server :=
  fun s =>
    let '(s', docs) := g s in
    (s', rbind docs (rmap (fun doc =>
           rbind (getitem doc "_id") (fun id =>
           Ok (PDict [("_op_type", PStr "delete"); ("_id", id)]))))).

(** [clear]; [models] is [None] or a list, as the assertion demands. *)
Definition clear (models : option (list model)) (commit : bool) : M unit :=
  try_except
    (this <- get_self ;;
     match models with
     | None =>
         request (es_indices_delete (index_name this) [404]) ;;;
         this <- get_self ;;
         set_self (mkBackend (connection_alias this) (index_name this)
                     (silently_fail this) false [] PNone)
     | Some models =>
         let models_to_delete := models_to_delete models in
         let query :=
           PDict [("query", PDict [("query_string", PDict [
                    ("query", PStr (join " OR " models_to_delete))])])] in
         let generator := es_scan query (index_name this) "modelresult" in
         let actions := delete_actions generator in
         request (es_bulk actions (index_name this) "modelresult") ;;;
         request (es_indices_refresh (index_name this)) ;;;
         ret tt
     end)
    (fun e =>
       if is_TransportError e then
         this <- get_self ;;
         if negb (silently_fail this) then raise e
         else
           match models with
           | Some models =>
               log_error "Failed to clear Elasticsearch index of models '%s': %s"
                 [PStr (join "," (models_to_delete models))] e
           | None =>
               log_error "Failed to clear Elasticsearch index: %s" [] e
           end
       else raise e).

End WithCollaborators.
End Backend.

(** ** The other builders of the request compiler *)

(** The constants of the text query: [haystack.constants.DEFAULT_OPERATOR]
    and [haystack_elasticsearch.constants.FUZZINESS]. *)
Class Constants : Type := {
  DEFAULT_OPERATOR : pyval;
  FUZZINESS : pyval
}.

Module Kwargs.

Section WithConstants.
Context {C : Constants}.

(** [_build_search_kwargs_default] *)
Definition _build_search_kwargs_default (content_field : string)
    (query_string : pyval) : pydict :=
  if eq_str query_string "*:*" then
    [("query", PDict [("match_all", PDict [])])]
  else
    [("query", PDict [("query_string", PDict [
        ("default_field", PStr content_field);
        ("default_operator", DEFAULT_OPERATOR);
        ("query", query_string);
        ("analyze_wildcard", PBool true);
        ("auto_generate_phrase_queries", PBool true);
        ("fuzziness", FUZZINESS)])])].

End WithConstants.

(** [sep.join(l)] for a list of values: every item has to be a string. *)
Definition py_join (sep : string) (l : list pyval) : result string :=
  rbind (rmap (fun x => match x with
                        | PStr s => Ok s
                        | _ => Raise (TypeError "sequence item: expected str instance")
                        end) l)
        (fun items => Ok (join sep items)).

(** [_build_search_kwargs_fields]. The universe of values has no sets: the
    collection of fields is a list here. *)
Definition _build_search_kwargs_fields (fields : pyval) : result (string * pyval) :=
  rbind (if truthy fields then
           match fields with
           | PList l => rbind (py_join " " l) (fun s => Ok (PStr s))
           | _ => Ok fields
           end
         else Ok fields)
        (fun fields => Ok ("stored_fields", fields)).

(** [_build_search_kwargs_highlight] *)
Definition _build_search_kwargs_highlight (content_field : string)
    (highlight : pyval) : pydict :=
  let result : pydict := [("fields", PDict [(content_field, PDict [])])] in
  match highlight with
  | PDict d => dict_update result d
  | _ => result
  end.

End Kwargs.

(** ** The search query object *)

Module SearchQuery.

(** [Elasticsearch5SearchQuery.add_field_facet]: [self.facets] before and
    after; [options] are the keyword arguments, stored as a copy. *)
Definition add_field_facet (facets : pydict) (field : string)
    (options : pydict) : pydict :=
  dict_set facets field (PDict options).

End SearchQuery.

(** ** Reference collaborators

    Concrete collaborators on which the model runs: the standard library's
    timestamp conversion, a small registry of models and an engine that
    holds indices of documents. They stand in for haystack and for the
    engine where a property is exercised on concrete data. *)

Module Reference.

(** The integer nearest to a double, ties to even. *)
Definition round_half_even (f : float) : Z :=
  match Prim2SF f with
  | S754_finite s m e =>
      let n :=
        if 0 <=? e then Z.shiftl (Zpos m) e
        else
          let q := Z.shiftr (Zpos m) (- e) in
          let r := Zpos m - Z.shiftl q (- e) in
          let half := Z.shiftl 1 (- e - 1) in
          if r <? half then q
          else if half <? r then q + 1
          else if Z.even q then q else q + 1 in
      if s then - n else n
  | _ => 0
  end.

(** The integral part of a double, towards zero. *)
Definition trunc (f : float) : Z :=
  match Prim2SF f with
  | S754_finite s m e =>
      let n := if 0 <=? e then Z.shiftl (Zpos m) e else Z.shiftr (Zpos m) (- e) in
      if s then - n else n
  | _ => 0
  end.

(** The date of a day count since 1970-01-01 in the proleptic Gregorian
    calendar. *)
Definition civil_from_days (days : Z) : Z * Z * Z :=
  let z := days + 719468 in
  let era := z / 146097 in
  let doe := z - era * 146097 in
  let yoe := (doe - doe / 1460 + doe / 36524 - doe / 146096) / 365 in
  let doy := doe - (365 * yoe + yoe / 4 - yoe / 100) in
  let mp := (5 * doy + 2) / 153 in
  let d := doy - (153 * mp + 2) / 5 + 1 in
  let m := if mp <? 10 then mp + 3 else mp - 9 in
  let y := yoe + era * 400 + (if m <=? 2 then 1 else 0) in
  (y, m, d).

(** [datetime.datetime.utcfromtimestamp]: the fraction is rounded to
    microseconds, ties to even; years outside 1..9999 are refused. *)
Definition utcfromtimestamp_impl (t : float) : result datetime :=
  match Prim2SF t with
  | S754_nan => Raise (ValueError "cannot convert float NaN to integer")
  | S754_infinity _ => Raise (OverflowError "cannot convert float infinity to integer")
  | _ =>
      let intpart := trunc t in
      let floatpart := PrimFloat.sub t (float_of_Z intpart) in
      let us := round_half_even (PrimFloat.mul floatpart 1e6%float) in
      let '(secs, us) :=
        if 1000000 <=? us then (intpart + 1, us - 1000000)
        else if us <? 0 then (intpart - 1, us + 1000000)
        else (intpart, us) in
      let '(y, m, d) := civil_from_days (secs / 86400) in
      let rem := secs mod 86400 in
      if (1 <=? y) && (y <=? 9999) then
        Ok (mkDatetime y m d (rem / 3600) ((rem mod 3600) / 60) (rem mod 60) us)
      else Raise (ValueError "year is out of range")
  end.

(** The hits of a raw response, without the documents. *)
Definition process_hits (raw_results highlight result_class distance_point
    geo_sort : pyval) : result pyval :=
  rbind (py_get raw_results "hits" (PDict [])) (fun hits =>
  rbind (py_get hits "total" (PInt 0)) (fun total =>
  Ok (PDict [("results", PList []); ("hits", total); ("facets", PDict []);
             ("spelling_suggestion", PNone)]))).

(** Models are named by their content type; an instance is a model and a
    primary key. *)
#[export] Instance haystack : Haystack := {|
  model := string;
  instance := string * Z;
  concrete_model := fst;
  get_model_ct := fun m => m;
  get_identifier := fun i => (fst i ++ "." ++ str_of_Z (snd i))%string;
  get_content_field := fun _ _ => Ok "text";
  get_facet_fieldname := fun _ f => (f ++ "_exact")%string;
  build_models_list := ["core.anothermockmodel"; "core.mockmodel"];
  HAYSTACK_LIMIT_TO_REGISTERED_MODELS := None;
  _from_python := fun v => v;
  utcfromtimestamp := utcfromtimestamp_impl;
  base_process_results := process_hits
|}.

(** The engine: the documents of each index that exists. *)
Definition indices : Type := list (string * list pyval).

Fixpoint find_index (name : string) (s : indices) : option (list pyval) :=
  match s with
  | [] => None
  | (n, docs) :: s' => if String.eqb n name then Some docs else find_index name s'
  end.

Definition drop_index (name : string) (s : indices) : indices :=
  filter (fun nd => negb (String.eqb (fst nd) name)) s.

(** The engine answers a request on a missing index with status 404, which
    the client raises as [NotFoundError] unless the call ignores 404. *)
Definition index_not_found : exn := TransportError 404 "index_not_found_exception".

Definition doc_matches (query : pyval) (doc : pyval) : bool :=
  match getitem query "query" with
  | Ok q =>
      match getitem q "query_string", getitem doc DJANGO_CT with
      | Ok qs, Ok (PStr ct) =>
          match getitem qs "query" with
          | Ok (PStr text) =>
              match String.index 0 (DJANGO_CT ++ ":" ++ ct)%string text with
              | Some _ => true
              | None => false
              end
          | _ => false
          end
      | _, _ => true
      end
  | Raise _ => true
  end.

Definition search (body : pyval) (index doc_type : string) (kwargs : pydict)
    (s : indices) : indices * result pyval :=
  match find_index index s with
  | None => (s, Raise index_not_found)
  | Some docs =>
      let hits := filter (doc_matches body) docs in
      (s, Ok (PDict [("hits", PDict [("total", PInt (Z.of_nat (length hits)));
                                      ("hits", PList hits)])]))
  end.

Definition indices_delete (index : string) (ignore : list Z) (s : indices)
  : indices * result pyval :=
  match find_index index s with
  | None =>
      if existsb (Z.eqb 404) ignore
      then (s, Ok (PDict [("status", PInt 404)]))
      else (s, Raise index_not_found)
  | Some _ => (drop_index index s, Ok (PDict [("acknowledged", PBool true)]))
  end.

Definition indices_refresh (index : string) (s : indices) : indices * result pyval :=
  match find_index index s with
  | None => (s, Raise index_not_found)
  | Some _ => (s, Ok (PDict []))
  end.

Definition scan (query : pyval) (index doc_type : string) : generator indices :=
  fun s =>
    match find_index index s with
    | None => (s, Raise index_not_found)
    | Some docs => (s, Ok (filter (doc_matches query) docs))
    end.

Definition is_deleted (actions : list pyval) (doc : pyval) : bool :=
  match getitem doc "_id" with
  | Ok (PStr id) =>
      existsb (fun a => match getitem a "_id" with
                        | Ok v => eq_str v id
                        | Raise _ => false
                        end) actions
  | _ => false
  end.

Definition bulk (actions : generator indices) (index doc_type : string)
    (s : indices) : indices * result pyval :=
  match actions s with
  | (s', Raise e) => (s', Raise e)
  | (s', Ok acts) =>
      (map (fun nd =>
              if String.eqb (fst nd) index
              then (fst nd, filter (fun d => negb (is_deleted acts d)) (snd nd))
              else nd) s',
       Ok (PTuple [PInt (Z.of_nat (length acts)); PList []]))
  end.

Definition setup (b : backend) (s : indices) : (backend * indices) * result unit :=
  let s' := match find_index (index_name b) s with
            | None => (s ++ [(index_name b, [])])%list
            | Some _ => s
            end in
  ((mkBackend (connection_alias b) (index_name b) (silently_fail b) true
      [(index_name b, PDict [])] (content_field_name b), s'), Ok tt).

#[export] Instance engine : Engine := {|
  server := indices;
  es_search := search;
  es_indices_delete := indices_delete;
  es_indices_refresh := indices_refresh;
  es_scan := scan;
  es_bulk := bulk;
  base_setup := setup
|}.

(** A second engine: it serves a given number of requests, with empty
    answers, and is unavailable (status 503) afterwards. *)
Definition unavailable : exn := TransportError 503 "service_unavailable".

Definition serve {A} (answer : A) (budget : nat) : nat * result A :=
  match budget with
  | O => (O, Raise unavailable)
  | S n => (n, Ok answer)
  end.

Definition flaky_bulk (actions : generator nat) (index doc_type : string)
    (budget : nat) : nat * result pyval :=
  match actions budget with
  | (budget', Raise e) => (budget', Raise e)
  | (budget', Ok acts) =>
      serve (PTuple [PInt (Z.of_nat (length acts)); PList []]) budget'
  end.

Definition flaky : Engine := {|
  server := nat;
  es_search := fun _ _ _ _ => serve (PDict []);
  es_indices_delete := fun _ _ => serve (PDict [("acknowledged", PBool true)]);
  es_indices_refresh := fun _ => serve (PDict []);
  es_scan := fun _ _ _ => serve [];
  es_bulk := flaky_bulk;
  base_setup := fun b s => ((b, s), Ok tt)
|}.

(** The backend named "default" over the index "haystack", set up. *)
Definition default_backend (silent : bool) : backend :=
  mkBackend "default" "haystack" silent true [("haystack", PDict [])]
    (PStr "text").






End Reference.


(** ** Vocabulary of the specification *)

Module Vocabulary.

(** The details of a date facet, as [add_date_facet] records them. *)
Definition date_facet (start_date end_date : pyval) (gap_by : string)
    (gap_amount : Z) : pyval :=
  PDict [("start_date", start_date); ("end_date", end_date);
         ("gap_by", PStr gap_by); ("gap_amount", PInt gap_amount)].

(** The interval string in the words of the specification: the lowercased
    unit when the multiplier is 1 or the unit is month or year, otherwise
    the multiplier before the unit's first letter. *)
Definition spec_interval (unit : string) (multiplier : Z) : string :=
  if (multiplier =? 1)
     || String.eqb (lower unit) "month" || String.eqb (lower unit) "year"
  then lower unit
  else (str_of_Z multiplier ++ String.substring 0 1 (lower unit))%string.

(** The aggregation clause of a date facet with a given interval. *)
Definition date_histogram_clause {H : Haystack} (facet_fieldname : string)
    (start_date end_date : pyval) (interval : string) : pyval :=
  PDict [
    ("meta", PDict [("_type", PStr "date_histogram")]);
    ("date_histogram", PDict [
       ("field", PStr facet_fieldname);
       ("interval", PStr interval)]);
    ("aggs", PDict [
       (facet_fieldname, PDict [
          ("date_range", PDict [
             ("field", PStr facet_fieldname);
             ("ranges", PList [PDict [
                ("from", _from_python start_date);
                ("to", _from_python end_date)]])])])])].

(** A list of date facets: name, bounds, unit and multiplier of each. *)
Definition date_facets_of (l : list (string * (pyval * pyval * string * Z)))
  : pydict :=
  map (fun '(name, (start_date, end_date, gap_by, gap_amount)) =>
         (name, date_facet start_date end_date gap_by gap_amount)) l.

(** Date facets whose units are ASCII text. *)
Definition ascii_units (l : list (string * (pyval * pyval * string * Z)))
  : bool :=
  forallb (fun '(_, (_, _, gap_by, _)) => is_ascii gap_by) l.

Definition date_clauses_of {H : Haystack} (l : list (string * (pyval * pyval * string * Z)))
    (result : pydict) : pydict :=
  fold_left (fun result '(name, (start_date, end_date, gap_by, gap_amount)) =>
               dict_set result name
                 (date_histogram_clause name start_date end_date
                    (spec_interval gap_by gap_amount))) l result.

(** The facets structure with its three mappings. *)
Definition three (fields dates queries : pydict) : pydict :=
  [("fields", PDict fields); ("dates", PDict dates); ("queries", PDict queries)].

(** What one aggregation entry adds to the facets. *)
Inductive contribution : Type :=
| Terms (pairs : list pyval)
| Dates (pairs : list pyval)
| Query (doc_count : pyval)
| Nothing.

Definition store (fields dates queries : pydict) (name : string)
    (c : contribution) : pydict :=
  match c with
  | Terms pairs => three (dict_set fields name (PList pairs)) dates queries
  | Dates pairs => three fields (dict_set dates name (PList pairs)) queries
  | Query doc_count => three fields dates (dict_set queries name doc_count)
  | Nothing => three fields dates queries
  end.

(** The contribution of an entry, read off the entry alone. *)
Definition contribution_of {H : Haystack} (facet_info : pyval)
  : result contribution :=
  rbind (getitem facet_info "meta") (fun meta =>
  rbind (getitem meta "_type") (fun facet_type =>
  if eq_str facet_type "terms" then
    rbind (getitem facet_info "buckets") (fun buckets =>
    rbind (py_iter buckets) (fun buckets =>
    rbind (rmap Decoder.terms_pair buckets) (fun pairs =>
    rbind (py_in "order" meta) (fun has_order =>
    if has_order : bool then
      rbind (getitem meta "order") (fun order =>
      if eq_str order "reverse_count" then
        rbind (py_sorted (fun x => getindex x 1) pairs) (fun srt => Ok (Terms srt))
      else Ok (Terms pairs))
    else Ok (Terms pairs)))))
  else if eq_str facet_type "date_histogram" then
    rbind (getitem facet_info "buckets") (fun buckets =>
    rbind (py_iter buckets) (fun buckets =>
    rbind (rmap Decoder.date_pair buckets) (fun pairs => Ok (Dates pairs))))
  else if eq_str facet_type "query" then
    rbind (getitem facet_info "doc_count") (fun doc_count => Ok (Query doc_count))
  else Ok Nothing)).

(** An entry decodes when the loop body, run on fresh facets, returns. *)
Definition decodes {H : Haystack} (entry : string * pyval) : Prop :=
  exists facets,
    Decoder.decode_facet (three [] [] []) (fst entry) (snd entry) = Ok facets.

(** The lookups in the three mappings. *)
Definition holds (f d q : pydict) (n : string) (c : contribution) : Prop :=
  match c with
  | Terms pairs => dict_get f n = Some (PList pairs)
  | Dates pairs => dict_get d n = Some (PList pairs)
  | Query doc_count => dict_get q n = Some doc_count
  | Nothing => True
  end.

Definition decode_loop {H : Haystack} (items : pydict) (facets : pydict) : result pydict :=
  rfold (fun facets '(facet_fieldname, facet_info) =>
           Decoder.decode_facet facets facet_fieldname facet_info) items facets.

(** A bucket of a response: a key and a document count. *)
Definition is_bucket (individual key doc_count : pyval) : Prop :=
  getitem individual "key" = Ok key
  /\ getitem individual "doc_count" = Ok doc_count.

(** The (term, count) pair of the decoded facets. *)
Definition pair_of (tc : pyval * Z) : pyval := PTuple [fst tc; PInt (snd tc)].

(** Stable insertion by ascending count. *)
Fixpoint insert_count (x : pyval * Z) (l : list (pyval * Z)) : list (pyval * Z) :=
  match l with
  | [] => [x]
  | y :: l' => if snd y <? snd x then y :: insert_count x l' else x :: y :: l'
  end.

Definition sort_counts (l : list (pyval * Z)) : list (pyval * Z) :=
  fold_right insert_count [] l.


(** Ascending counts. *)
Definition count_le (a b : pyval * Z) : Prop := snd a <= snd b.

(** A pair under its sort key. *)
Definition decorate (tc : pyval * Z) : pyval * pyval :=
  (PInt (snd tc), pair_of tc).

(** The facets structure that has the three mappings, all empty. *)
Definition empty_mappings : pyval := PDict (three [] [] []).

(** The default arguments of [_process_results]. *)
Definition process {H : Haystack} (raw_results : pyval) : result pyval :=
  Decoder._process_results raw_results (PBool false) PNone PNone (PBool false).

(** A bucket of a response, with its two members only. *)
Definition bucket (key doc_count : pyval) : pyval :=
  PDict [("key", key); ("doc_count", doc_count)].

(** A response with one terms aggregation whose metadata asks for the
    reverse-count order, as the engine echoes the compiled metadata. *)
Definition authors_response : pyval :=
  PDict [("aggregations", PDict [
    ("author", PDict [
       ("meta", PDict [("_type", PStr "terms"); ("order", PStr "reverse_count")]);
       ("buckets", PList [bucket (PStr "A") (PInt 5); bucket (PStr "B") (PInt 2);
                          bucket (PStr "C") (PInt 9)])])])].

(** A bucket of a date histogram and its decoded pair: the key, an integer
    of milliseconds, is divided by 1000 and the quotient converted. *)
Definition decoded_date_bucket {H : Haystack} (individual pair : pyval) : Prop :=
  exists (key : Z) (doc_count : pyval) (seconds : float) (stamp : datetime),
    is_bucket individual (PInt key) doc_count
    /\ int_true_div key 1000 = Ok seconds
    /\ utcfromtimestamp seconds = Ok stamp
    /\ pair = PTuple [PDatetime stamp; doc_count].

(** A response with one date histogram of one bucket. *)
Definition dates_response : pyval :=
  PDict [("aggregations", PDict [
    ("pub_date", PDict [
       ("meta", PDict [("_type", PStr "date_histogram")]);
       ("buckets", PList [bucket (PInt 1000000000000) (PInt 7)])])])].

(** A response with an aggregation of a type the decoder does not know,
    between two that it knows. *)
Definition mixed_response : pyval :=
  PDict [("aggregations", PDict [
    ("author", PDict [
       ("meta", PDict [("_type", PStr "terms")]);
       ("buckets", PList [bucket (PStr "A") (PInt 5)])]);
    ("price", PDict [
       ("meta", PDict [("_type", PStr "range")]);
       ("buckets", PList [bucket (PStr "*-10") (PInt 3)])]);
    ("recent", PDict [
       ("meta", PDict [("_type", PStr "query")]);
       ("doc_count", PInt 4)])])].

(** Ascending strings. *)
Definition string_le (a b : string) : Prop := String.leb a b = true.

(** The base clause of a similarity query. *)
Definition mlt_clause (field_name doc_id : string) : pyval :=
  PDict [("more_like_this", PDict [
    ("fields", PList [PStr field_name]);
    ("like", PList [PDict [("_id", PStr doc_id)]])])].

(** The narrowing query of an additional query string, and the one of a
    list of entity types. *)
Definition query_string_filter (s : string) : pyval :=
  PDict [("query_string", PDict [("query", PStr s)])].

Definition types_filter (names : list string) : pyval :=
  PDict [("terms", PDict [(DJANGO_CT, PList (map PStr names))])].

(** The AND-group form of a similarity query. *)
Definition mlt_wrapped (field_name doc_id : string) (narrow : list pyval) : pyval :=
  PDict [("query", PDict [("bool", PDict [
    ("must", mlt_clause field_name doc_id);
    ("filter", PDict [("bool", PDict [("must", PList narrow)])])])])].

(** The world with another state of the engine, and with one more record
    in the log. *)
Definition with_conn {E : Engine} (w : world) (s : server) : world :=
  mkWorld E (self w) s (logged w).

Definition with_log {E : Engine} (w : world) (r : log_record) : world :=
  mkWorld E (self w) (conn w) (logged w ++ [r]).

(** The scroll query of a partial clear. *)
Definition clear_query {H : Haystack} (models : list model) : pyval :=
  PDict [("query", PDict [("query_string", PDict [
           ("query", PStr (join " OR " (Backend.models_to_delete models)))])])].

(** The backend after a full clear: the cached state is reset. *)
Definition reset (b : backend) : backend :=
  mkBackend (connection_alias b) (index_name b) (silently_fail b) false [] PNone.

(** Worlds of the reference engine without any index. *)
Definition lost_world (silent : bool) : @world Reference.engine :=
  mkWorld Reference.engine (Reference.default_backend silent) [] [].

(** Worlds of the engine that serves [budget] requests. *)
Definition flaky_world (silent : bool) (budget : nat) : @world Reference.flaky :=
  mkWorld Reference.flaky (Reference.default_backend silent) budget [].




Definition clear_failure {H : Haystack} (models : option (list model))
    (e : exn) : log_record :=
  match models with
  | Some models =>
      mkLog "Failed to clear Elasticsearch index of models '%s': %s"
        [PStr (join "," (Backend.models_to_delete models))] e
  | None => mkLog "Failed to clear Elasticsearch index: %s" [] e
  end.

End Vocabulary.

(** ** Further vocabulary *)

Module Notions.

(** The options of a terms facet that are not options of the terms clause. *)
Definition special_option (k : string) : bool :=
  String.eqb k "order" || String.eqb k "global_scope"
  || String.eqb k "facet_filter".

(** The options of a terms facet once the special ones are popped. *)
Definition strip (options : pydict) : pydict :=
  dict_del (dict_del (dict_del options "order") "global_scope") "facet_filter".

(** The aggregation clause of a terms facet, from its options. *)
Definition terms_clause {H : Haystack} (alias name : string)
    (options : pydict) : pyval :=
  let meta :=
    match dict_get options "order" with
    | Some o => [("_type", PStr "terms"); ("order", o)]
    | None => [("_type", PStr "terms")]
    end in
  let terms :=
    dict_update [("field", PStr (get_facet_fieldname alias name))]
      (strip options) in
  let clause := [("meta", PDict meta); ("terms", PDict terms)] in
  let clause :=
    if truthy (dict_get_default (dict_del options "order") "global_scope"
                 (PBool false))
    then (clause ++ [("global", PBool true)])%list else clause in
  match dict_get (dict_del (dict_del options "order") "global_scope")
          "facet_filter" with
  | Some f => PDict (clause ++ [("facet_filter", f)])%list
  | None => PDict clause
  end.

(** Facets whose options are dictionaries. *)
Definition facets_of (l : list (string * pydict)) : pydict :=
  map (fun '(name, options) => (name, PDict options)) l.

(** The clauses of a list of terms facets, and the facets as the compiler
    leaves them. *)
Definition terms_clauses {H : Haystack} (alias : string)
    (l : list (string * pydict)) : pydict :=
  map (fun '(name, options) => (name, terms_clause alias name options)) l.

Definition stripped (l : list (string * pydict)) : list (string * pydict) :=
  map (fun '(name, options) => (name, strip options)) l.

(** The loop over [facets.items()]. *)
Definition terms_step {H : Haystack} (alias : string)
  : pydict * pydict -> string * pyval -> result (pydict * pydict) :=
  fun '(result, items') '(facet_fieldname, extra_options) =>
    rbind (Compiler.terms_facet_options alias facet_fieldname extra_options)
      (fun x => let '(facet_options, extra_options) := x in
         Ok (dict_set result facet_fieldname facet_options,
             dict_set items' facet_fieldname extra_options)).

(** The loop over [date_facets.items()] and the one over [query_facets]. *)
Definition date_step {H : Haystack}
  : pydict -> string * pyval -> result pydict :=
  fun result '(facet_fieldname, value) =>
    rbind (Compiler.date_facet_options facet_fieldname value)
      (fun facet_options => Ok (dict_set result facet_fieldname facet_options)).

Definition query_step : pydict -> string * pyval -> pydict :=
  fun result '(facet_fieldname, value) =>
    dict_set result facet_fieldname (Compiler.query_facet_options value).

(** A clause that carries one of the three type tags of the decoder. *)
Definition tagged (clause : pyval) : Prop :=
  exists meta tag,
    getitem clause "meta" = Ok meta
    /\ getitem meta "_type" = Ok (PStr tag)
    /\ (tag = "terms" \/ tag = "date_histogram" \/ tag = "query").

(** Aggregations whose clauses all carry a type tag. *)
Definition all_tagged (aggs : pydict) : Prop :=
  Forall (fun kv => tagged (snd kv)) aggs.

(** Constants to run the model on. *)
Definition constants : Constants := {|
  DEFAULT_OPERATOR := PStr "AND";
  FUZZINESS := PStr "AUTO"
|}.

(** A world of the reference engine whose index holds one document
    without an identifier. *)
Definition broken_world (silent : bool) : @world Reference.engine :=
  mkWorld Reference.engine (Reference.default_backend silent)
    [("haystack", [PDict [("django_ct", PStr "core.mockmodel")]])] [].

(** A world of the reference engine whose index holds two documents. *)
Definition stocked_world (silent : bool) : @world Reference.engine :=
  mkWorld Reference.engine (Reference.default_backend silent)
    [("haystack",
      [PDict [("_id", PStr "core.mockmodel.1"); ("django_ct", PStr "core.mockmodel")];
       PDict [("_id", PStr "core.other.1"); ("django_ct", PStr "core.other")]])]
    [].

End Notions.

(** * Properties *)

(** ** Request compiler *)

Module CompilerSpec.
Import Compiler Vocabulary.

(** C1. The query-combination step [_build_search_kwargs_query] on a list
    of one filter returns a bool clause whose [must] is the relevance
    clause and whose [filter] is that filter itself; on a list of two or
    more filters the [filter] is a bool/must group of all of them. On the
    empty list the relevance clause is not returned: the function ends in
    [UnboundLocalError], because [result] is assigned only under
    [if filters:]. *)
Theorem build_search_kwargs_query_cases :
  forall query : pyval,
    _build_search_kwargs_query [] query = Raise (UnboundLocalError "result")
    /\ (forall f,
          _build_search_kwargs_query [f] query
          = Ok (PDict [("bool", PDict [("must", query); ("filter", f)])]))
    /\ (forall f1 f2 fs,
          _build_search_kwargs_query (f1 :: f2 :: fs) query
          = Ok (PDict [("bool", PDict [("must", query);
                  ("filter", PDict [("bool",
                     PDict [("must", PList (f1 :: f2 :: fs))])])])])).
Proof.
  intro query. split; [reflexivity | split].
  - intro f. reflexivity.
  - intros f1 f2 fs. unfold _build_search_kwargs_query.
    cbn [truthy length].
    replace (Z.of_nat (S (S (length fs))) =? 1) with false
      by (symmetry; apply Z.eqb_neq; lia).
    reflexivity.
Qed.

Section DateFacets.
Context {H : Haystack}.

Lemma date_facet_interval_spec start_date end_date gap_by gap_amount :
  is_ascii gap_by = true ->
  date_facet_interval (date_facet start_date end_date gap_by gap_amount)
  = Ok (spec_interval gap_by gap_amount).
Proof.
  intro A.
  unfold date_facet_interval, date_facet, spec_interval.
  cbn [py_get dict_get_default dict_get String.eqb Ascii.eqb Bool.eqb
       rbind py_lower eq_int getitem py_str].
  rewrite A. cbn [rbind].
  destruct (gap_amount =? 1); cbn [negb andb orb]; [reflexivity|].
  destruct (String.eqb (lower gap_by) "month"); cbn [negb andb orb]; [reflexivity|].
  destruct (String.eqb (lower gap_by) "year"); reflexivity.
Qed.

Lemma date_facet_options_spec name start_date end_date gap_by gap_amount :
  is_ascii gap_by = true ->
  date_facet_options name (date_facet start_date end_date gap_by gap_amount)
  = Ok (date_histogram_clause name start_date end_date
          (spec_interval gap_by gap_amount)).
Proof.
  intro A. unfold date_facet_options.
  rewrite date_facet_interval_spec by exact A.
  reflexivity.
Qed.

End DateFacets.

Section DateFacetList.
Context {H : Haystack}.

Lemma date_facets_loop l : forall result,
  ascii_units l = true ->
  rfold (fun result '(facet_fieldname, value) =>
           rbind (date_facet_options facet_fieldname value) (fun facet_options =>
           Ok (dict_set result facet_fieldname facet_options)))
        (date_facets_of l) result
  = Ok (date_clauses_of l result).
Proof.
  induction l as [|[name [[[start_date end_date] gap_by] gap_amount]] l IH];
    intros result A; [reflexivity|].
  cbn [ascii_units forallb] in A. apply andb_prop in A. destruct A as [A1 A2].
  cbn [date_facets_of map rfold]. rewrite date_facet_options_spec by exact A1.
  cbn [rbind]. now apply IH.
Qed.

End DateFacetList.

Section TermsFacets.
Context {H : Haystack}.

(** An order among the options of a terms facet goes to the metadata of
    its aggregation clause, whatever the other options. *)
Lemma terms_facet_order_meta alias name o rest :
  exists clause options,
    terms_facet_options alias name (PDict (("order", o) :: rest))
    = Ok (clause, options)
    /\ getitem clause "meta"
       = Ok (PDict [("_type", PStr "terms"); ("order", o)]).
Proof.
  unfold terms_facet_options.
  cbn [py_in dict_has dict_get String.eqb Ascii.eqb Bool.eqb rbind py_pop
       dict_del dict_set py_pop_default].
  destruct (dict_get rest "global_scope") as [g|]; cbn [rbind];
    [destruct (truthy g)|];
    cbn [truthy py_in rbind]; unfold dict_has;
    match goal with
    | |- context [dict_get ?d "facet_filter"] =>
        destruct (dict_get d "facet_filter") as [f|] eqn:F
    end;
    cbn [rbind py_pop py_update]; rewrite ?F; cbn [rbind py_pop py_update];
    do 2 eexists; (split; [reflexivity|]); reflexivity.
Qed.

End TermsFacets.

(** C4. For every date facet whose unit is ASCII text, whatever its
    name, bounds and multiplier and whatever the case of the unit's
    letters, the interval that [_build_search_kwargs_facets] compiles is
    the lowercased unit when the multiplier is 1 (or is not given) or the
    lowercased unit is month or year, and otherwise the multiplier written
    before the first letter of the lowercased unit; (day, 2) gives "2d",
    (month, 3) gives "month" and (year, 5) gives "year", and so do (Day, 2),
    (MONTH, 3) and (Year, 5). Lowercasing takes the letters A to Z to a to z
    and leaves the other ASCII characters. *)
Theorem date_histogram_interval :
  forall (H : Haystack) (alias : string),
    (forall start_date end_date gap_by gap_amount,
       is_ascii gap_by = true ->
       date_facet_interval (date_facet start_date end_date gap_by gap_amount)
       = Ok (if (gap_amount =? 1)
                || String.eqb (lower gap_by) "month"
                || String.eqb (lower gap_by) "year"
             then lower gap_by
             else (str_of_Z gap_amount
                   ++ String.substring 0 1 (lower gap_by))%string))
    /\ (forall l,
          ascii_units l = true ->
          _build_search_kwargs_facets alias None (Some (date_facets_of l)) None
          = Ok (("aggs", date_clauses_of l []), None))
    /\ (forall start_date end_date gap_by,
          is_ascii gap_by = true ->
          date_facet_interval
            (PDict [("start_date", start_date); ("end_date", end_date);
                    ("gap_by", PStr gap_by)])
          = Ok (lower gap_by))
    /\ (forall start_date end_date,
          date_facet_interval (date_facet start_date end_date "day" 2) = Ok "2d"
          /\ date_facet_interval (date_facet start_date end_date "month" 3)
             = Ok "month"
          /\ date_facet_interval (date_facet start_date end_date "year" 5)
             = Ok "year")
    /\ (forall start_date end_date,
          date_facet_interval (date_facet start_date end_date "Day" 2) = Ok "2d"
          /\ date_facet_interval (date_facet start_date end_date "MONTH" 3)
             = Ok "month"
          /\ date_facet_interval (date_facet start_date end_date "Year" 5)
             = Ok "year"
          /\ date_facet_interval (date_facet start_date end_date "WEEK" 12)
             = Ok "12w"
          /\ date_facet_interval (date_facet start_date end_date "Hour" 1)
             = Ok "hour"
          /\ date_facet_interval (date_facet start_date end_date "Months" 3)
             = Ok "3m"
          /\ date_facet_interval
               (date_facet start_date end_date "ABCDEFGHIJKLMNOPQRSTUVWXYZ" 1)
             = Ok "abcdefghijklmnopqrstuvwxyz"
          /\ date_facet_interval
               (date_facet start_date end_date "@[`{ 09az_-/" 1)
             = Ok "@[`{ 09az_-/").
Proof.
  intros. split; [intros; now apply date_facet_interval_spec | split].
  - intros l A. unfold _build_search_kwargs_facets.
    cbn [rbind]. rewrite date_facets_loop by exact A. reflexivity.
  - split; [|split].
    + intros start_date end_date gap_by A. unfold date_facet_interval.
      cbn [py_get dict_get_default dict_get String.eqb Ascii.eqb Bool.eqb
           rbind py_lower]. rewrite A. reflexivity.
    + intros. repeat split; reflexivity.
    + intros. repeat split; reflexivity.
Qed.

Lemma date_histogram_interval_witness :
  date_facet_interval (date_facet PNone PNone "QUARTER" 2) = Ok "2q"
  /\ @_build_search_kwargs_facets Reference.haystack "default" None
       (Some [("pub_date", date_facet PNone PNone "Day" 2);
              ("created", date_facet PNone PNone "MONTH" 3)])
       None
     = Ok (("aggs",
            [("pub_date",
              @date_histogram_clause Reference.haystack "pub_date" PNone PNone
                "2d");
             ("created",
              @date_histogram_clause Reference.haystack "created" PNone PNone
                "month")]),
           None)
  /\ date_facet_interval
       (PDict [("start_date", PNone); ("end_date", PNone);
               ("gap_by", PStr "Minute")])
     = Ok "minute".
Proof.
  destruct (date_histogram_interval Reference.haystack "default")
    as (I & L & D & _).
  split; [|split].
  - exact (I PNone PNone "QUARTER" 2 eq_refl).
  - exact (L [("pub_date", (PNone, PNone, "Day", 2));
              ("created", (PNone, PNone, "MONTH", 3))] eq_refl).
  - exact (D PNone PNone "Minute" eq_refl).
Defined.

End CompilerSpec.

(** ** Dictionaries *)

Module DictFacts.

Lemma dict_get_set_eq d k v : dict_get (dict_set d k v) k = Some v.
Proof.
  induction d as [|[k' v'] d IH]; cbn.
  - now rewrite String.eqb_refl.
  - destruct (String.eqb k k') eqn:E; cbn; rewrite ?String.eqb_refl, ?E; auto.
Qed.

Lemma dict_get_set_neq d k k' v :
  k <> k' -> dict_get (dict_set d k' v) k = dict_get d k.
Proof.
  intro N. apply String.eqb_neq in N.
  induction d as [|[k0 v0] d IH]; cbn.
  - now rewrite N.
  - destruct (String.eqb k' k0) eqn:E; cbn.
    + apply String.eqb_eq in E. subst k0. now rewrite N.
    + destruct (String.eqb k k0); auto.
Qed.

Lemma dict_set_set d k v v' : dict_set (dict_set d k v) k v' = dict_set d k v'.
Proof.
  induction d as [|[k' w] d IH]; cbn.
  - now rewrite String.eqb_refl.
  - destruct (String.eqb k k') eqn:E; cbn; rewrite ?String.eqb_refl, ?E; auto.
    now rewrite IH.
Qed.

Lemma getitem_dict d k v : dict_get d k = Some v -> getitem (PDict d) k = Ok v.
Proof. intro G. cbn. now rewrite G. Qed.

Lemma getitem_is_dict v k x : getitem v k = Ok x -> exists d, v = PDict d.
Proof. destruct v; cbn; try discriminate. eauto. Qed.

Lemma rfold_app {A S} (step : S -> A -> result S) l1 l2 s :
  rfold step (l1 ++ l2) s = rbind (rfold step l1 s) (rfold step l2).
Proof.
  revert s. induction l1 as [|a l1 IH]; intro s; cbn; [reflexivity|].
  destruct (step s a); cbn; auto.
Qed.

End DictFacts.

(** ** Sorting *)

Module SortFacts.
Import Vocabulary.

Lemma insert_count_perm x l : Permutation (x :: l) (insert_count x l).
Proof.
  induction l as [|y l IH]; cbn; [apply Permutation_refl|].
  destruct (snd y <? snd x); [|apply Permutation_refl].
  eapply perm_trans; [apply perm_swap|]. now apply perm_skip.
Qed.

Lemma sort_counts_perm l : Permutation l (sort_counts l).
Proof.
  induction l as [|x l IH]; cbn; [constructor|].
  eapply perm_trans; [apply perm_skip, IH|]. apply insert_count_perm.
Qed.

Lemma insert_count_sorted x l :
  StronglySorted count_le l -> StronglySorted count_le (insert_count x l).
Proof.
  induction 1 as [|y l S IH F]; cbn.
  - constructor; constructor.
  - destruct (Z.ltb_spec (snd y) (snd x)) as [L|G].
    + constructor; [exact IH|].
      eapply Permutation_Forall; [apply insert_count_perm|].
      constructor; [unfold count_le; lia | exact F].
    + constructor; [constructor; assumption|].
      constructor; [exact G|].
      eapply Forall_impl; [|exact F]. unfold count_le. intros; cbn in *; lia.
Qed.

Lemma sort_counts_sorted l : StronglySorted count_le (sort_counts l).
Proof.
  induction l as [|x l IH]; cbn; [constructor|]. now apply insert_count_sorted.
Qed.

(** Pairs of equal count keep the order they had. *)
Lemma insert_count_stable c x l :
  filter (fun p => snd p =? c) (insert_count x l)
  = filter (fun p => snd p =? c) (x :: l).
Proof.
  induction l as [|y l IH]; [reflexivity|].
  cbn [insert_count]. destruct (Z.ltb_spec (snd y) (snd x)) as [L|G];
    [|reflexivity].
  cbn [filter] in *. rewrite IH.
  destruct (Z.eqb_spec (snd x) c), (Z.eqb_spec (snd y) c); try reflexivity.
  lia.
Qed.

Lemma sort_counts_stable c l :
  filter (fun p => snd p =? c) (sort_counts l) = filter (fun p => snd p =? c) l.
Proof.
  induction l as [|x l IH]; [reflexivity|].
  cbn [sort_counts fold_right]. rewrite insert_count_stable.
  cbn [filter]. fold (sort_counts l). now rewrite IH.
Qed.

(** [sorted(pairs, key=lambda x: x[1])] on pairs with integer counts is the
    stable insertion by count. *)
Lemma insert_by_counts x l :
  insert_by (fun a b => py_lt (fst a) (fst b)) (decorate x) (map decorate l)
  = Ok (map decorate (insert_count x l)).
Proof.
  induction l as [|y l IH]; [reflexivity|].
  cbn [map insert_by insert_count decorate fst py_lt rbind].
  fold (decorate x). fold (decorate y).
  destruct (snd y <? snd x); [|reflexivity].
  rewrite IH. reflexivity.
Qed.

Lemma sort_by_counts l :
  sort_by (fun a b => py_lt (fst a) (fst b)) (map decorate l)
  = Ok (map decorate (sort_counts l)).
Proof.
  induction l as [|x l IH]; [reflexivity|].
  cbn [map sort_by]. rewrite IH. cbn [rbind]. apply insert_by_counts.
Qed.

Lemma py_sorted_counts l :
  py_sorted (fun x => getindex x 1) (map pair_of l)
  = Ok (map pair_of (sort_counts l)).
Proof.
  unfold py_sorted.
  assert (D : rmap (fun x => rbind (getindex x 1) (fun k => Ok (k, x)))
                (map pair_of l) = Ok (map decorate l)).
  { induction l as [|x l IH]; [reflexivity|].
    cbn [map rmap]. rewrite IH. reflexivity. }
  rewrite D. cbn [rbind]. rewrite sort_by_counts. cbn [rbind].
  rewrite map_map. reflexivity.
Qed.

End SortFacts.

(** ** Response decoder *)

Module DecoderSpec.
Import Decoder Vocabulary DictFacts.

Section Loop.
Context {H : Haystack}.

Lemma set_in_fields f d q n v :
  set_in (three f d q) "fields" n v = Ok (three (dict_set f n v) d q).
Proof. reflexivity. Qed.

Lemma set_in_dates f d q n v :
  set_in (three f d q) "dates" n v = Ok (three f (dict_set d n v) q).
Proof. reflexivity. Qed.

Lemma set_in_queries f d q n v :
  set_in (three f d q) "queries" n v = Ok (three f d (dict_set q n v)).
Proof. reflexivity. Qed.

Lemma get_in_fields f d q n :
  get_in (three f d q) "fields" n = getitem (PDict f) n.
Proof. reflexivity. Qed.

(** The loop body stores the contribution of the entry and nothing else. *)
Lemma decode_facet_contribution f d q n info :
  decode_facet (three f d q) n info
  = rbind (contribution_of info) (fun c => Ok (store f d q n c)).
Proof.
  unfold decode_facet, contribution_of.
  destruct (getitem info "meta") as [meta|e] eqn:M; cbn [rbind]; [|reflexivity].
  destruct (getitem meta "_type") as [ty|e]; cbn [rbind]; [|reflexivity].
  destruct (eq_str ty "terms").
  - destruct (getitem info "buckets") as [bs|e]; cbn [rbind]; [|reflexivity].
    destruct (py_iter bs) as [l|e]; cbn [rbind]; [|reflexivity].
    destruct (rmap terms_pair l) as [pairs|e]; cbn [rbind]; [|reflexivity].
    rewrite set_in_fields. cbn [rbind].
    destruct (py_in "order" meta) as [[|]|e]; cbn [rbind]; try reflexivity.
    destruct (getitem meta "order") as [o|e]; cbn [rbind]; [|reflexivity].
    destruct (eq_str o "reverse_count"); [|reflexivity].
    rewrite get_in_fields. cbn [getitem]. rewrite dict_get_set_eq.
    cbn [rbind py_iter].
    destruct (py_sorted _ pairs) as [srt|e]; cbn [rbind]; [|reflexivity].
    rewrite set_in_fields, dict_set_set. reflexivity.
  - destruct (eq_str ty "date_histogram").
    + destruct (getitem info "buckets") as [bs|e]; cbn [rbind]; [|reflexivity].
      destruct (py_iter bs) as [l|e]; cbn [rbind]; [|reflexivity].
      destruct (rmap date_pair l) as [pairs|e]; cbn [rbind]; reflexivity.
    + destruct (eq_str ty "query"); [|reflexivity].
      destruct (getitem info "doc_count") as [c|e]; cbn [rbind]; reflexivity.
Qed.

Lemma decodes_contribution entry :
  decodes entry <-> exists c, contribution_of (snd entry) = Ok c.
Proof.
  unfold decodes. rewrite decode_facet_contribution.
  destruct (contribution_of (snd entry)) as [c|e]; cbn [rbind]; split;
    intros [x Hx]; try discriminate; eauto.
Qed.

Lemma store_three f d q n c :
  exists f' d' q', store f d q n c = three f' d' q'
    /\ holds f' d' q' n c
    /\ (forall k, k <> n ->
          dict_get f' k = dict_get f k /\ dict_get d' k = dict_get d k
          /\ dict_get q' k = dict_get q k).
Proof.
  destruct c; cbn [store holds]; do 3 eexists; (split; [reflexivity|]);
    (split; [try apply dict_get_set_eq; exact I|]);
    intros k N; rewrite ?dict_get_set_neq by exact N; auto.
Qed.

(** A loop over entries that all decode returns the three mappings; names
    outside the entries keep their values, and each entry of a list
    without repeated names is found under its name. *)
Lemma decode_loop_three items : forall f d q,
  Forall decodes items ->
  exists f' d' q',
    decode_loop items (three f d q) = Ok (three f' d' q')
    /\ (forall k, ~ In k (map fst items) ->
          dict_get f' k = dict_get f k /\ dict_get d' k = dict_get d k
          /\ dict_get q' k = dict_get q k)
    /\ (NoDup (map fst items) ->
        forall n info c, In (n, info) items -> contribution_of info = Ok c ->
          holds f' d' q' n c).
Proof.
  induction items as [|[n0 i0] items IH]; intros f d q A.
  - exists f, d, q. split; [reflexivity|]. split; [auto|]. intros _ n info c [].
  - inversion A as [|x l A0 A1]; subst x l.
    apply decodes_contribution in A0. destruct A0 as [c0 C0]. cbn [snd] in C0.
    destruct (store_three f d q n0 c0) as (f1 & d1 & q1 & S1 & H1 & K1).
    destruct (IH f1 d1 q1 A1) as (f2 & d2 & q2 & R & K2 & L2).
    exists f2, d2, q2. split; [|split].
    + unfold decode_loop in *. cbn [rfold].
      rewrite decode_facet_contribution, C0. cbn [rbind]. now rewrite S1.
    + intros k N. cbn [map fst In] in N.
      destruct (K2 k) as (Ea & Eb & Ec); [tauto|].
      destruct (K1 k) as (Fa & Fb & Fc); [intro; subst; tauto|].
      repeat split; congruence.
    + intros ND n info c I C. cbn [map fst] in ND.
      inversion ND as [|x l Nin ND']; subst x l.
      destruct I as [I|I].
      * inversion I; subst n0 i0. assert (c = c0) by congruence. subst c0.
        destruct (K2 n Nin) as (Ea & Eb & Ec).
        destruct c; cbn [holds] in *; congruence.
      * eapply L2; eauto.
Qed.

End Loop.

Section Results.
Context {H : Haystack}.

Lemma has_aggregations raw v :
  getitem raw "aggregations" = Ok v -> py_in "aggregations" raw = Ok true.
Proof.
  destruct raw; cbn; try discriminate. unfold dict_has.
  destruct (dict_get d "aggregations"); [reflexivity | discriminate].
Qed.

(** The facets of a response whose entries all decode: the three mappings,
    with every entry under its name. *)
Lemma decode_facets_entries raw items :
  getitem raw "aggregations" = Ok (PDict items) ->
  NoDup (map fst items) ->
  Forall decodes items ->
  exists f d q,
    decode_facets raw = Ok (three f d q)
    /\ forall n info c, In (n, info) items -> contribution_of info = Ok c ->
         holds f d q n c.
Proof.
  intros A ND D. unfold decode_facets.
  rewrite (has_aggregations _ _ A), A. cbn [rbind py_items].
  destruct (decode_loop_three items [] [] [] D) as (f & d & q & R & _ & L).
  exists f, d, q. split; [exact R | exact (L ND)].
Qed.

Lemma process_results_entries raw items hl rc dp gs res :
  getitem raw "aggregations" = Ok (PDict items) ->
  NoDup (map fst items) ->
  Forall decodes items ->
  base_process_results raw hl rc dp gs = Ok (PDict res) ->
  exists f d q,
    _process_results raw hl rc dp gs
    = Ok (PDict (dict_set res "facets" (PDict (three f d q))))
    /\ forall n info c, In (n, info) items -> contribution_of info = Ok c ->
         holds f d q n c.
Proof.
  intros A ND D B.
  destruct (decode_facets_entries raw items A ND D) as (f & d & q & R & L).
  exists f, d, q. split; [|exact L].
  unfold _process_results. rewrite B, R. reflexivity.
Qed.

(** The other entries decode, and so does the one at hand. *)
Lemma all_decode items n info c :
  (forall e, In e items -> fst e <> n -> decodes e) ->
  NoDup (map fst items) -> In (n, info) items ->
  contribution_of info = Ok c ->
  Forall decodes items.
Proof.
  intros O ND I C. apply Forall_forall. intros [n' i'] I'.
  destruct (String.eqb_spec n' n) as [->|N]; [|now apply O].
  assert (i' = info) as ->.
  { clear - ND I I'. induction items as [|[k v] items IH]; [contradiction|].
    cbn [map fst] in ND. inversion ND as [|x l Nin ND']; subst.
    destruct I as [I|I], I' as [I'|I'].
    - congruence.
    - inversion I; subst. exfalso. apply Nin.
      change n with (fst (n, i')). now apply in_map.
    - inversion I'; subst. exfalso. apply Nin.
      change n with (fst (n, info)). now apply in_map.
    - now apply IH. }
  apply decodes_contribution. eauto.
Qed.

Lemma rmap_terms_pair bs : forall typed,
  Forall2 (fun b tc => is_bucket b (fst tc) (PInt (snd tc))) bs typed ->
  rmap terms_pair bs = Ok (map pair_of typed).
Proof.
  induction 1 as [|b tc bs typed [K C] F IH]; [reflexivity|].
  cbn [rmap map]. unfold terms_pair at 1. rewrite K, C. cbn [rbind].
  rewrite IH. reflexivity.
Qed.

(** The contribution of a terms entry with integer counts. *)
Lemma contribution_terms info m bs typed :
  getitem info "meta" = Ok (PDict m) ->
  dict_get m "_type" = Some (PStr "terms") ->
  getitem info "buckets" = Ok (PList bs) ->
  Forall2 (fun b tc => is_bucket b (fst tc) (PInt (snd tc))) bs typed ->
  contribution_of info
  = Ok (Terms (map pair_of
                 (match dict_get m "order" with
                  | Some o => if eq_str o "reverse_count"
                              then sort_counts typed else typed
                  | None => typed
                  end))).
Proof.
  intros M T B F. unfold contribution_of.
  rewrite M. cbn [rbind getitem]. rewrite T. cbn [rbind eq_str String.eqb Ascii.eqb Bool.eqb].
  rewrite B. cbn [rbind py_iter]. rewrite (rmap_terms_pair _ _ F).
  cbn [rbind py_in]. unfold dict_has.
  destruct (dict_get m "order") as [o|]; cbn [rbind]; [|reflexivity].
  destruct (eq_str o "reverse_count"); [|reflexivity].
  rewrite SortFacts.py_sorted_counts. reflexivity.
Qed.

End Results.

(** C5. A terms facet compiled with the ordering hint "reverse_count"
    carries the hint in its metadata and not in its terms clause. For a
    response whose terms aggregation has buckets with integer counts, the
    decoder stores the (term, count) pairs under the facet's name: when the
    metadata holds that ordering they are the pairs re-sorted ascending by
    count, pairs of equal count keeping their bucket order; when the
    metadata holds no ordering they are the pairs in bucket order. Buckets
    (A,5), (B,2), (C,9) decode to (B,2), (A,5), (C,9). *)
Theorem terms_reverse_count_order :
  forall (H : Haystack) (alias name : string) (raw : pyval) (items : pydict)
         (info : pyval) (m : pydict) (bs : list pyval)
         (typed : list (pyval * Z)) (hl rc dp gs : pyval) (res : pydict),
    getitem raw "aggregations" = Ok (PDict items) ->
    NoDup (map fst items) ->
    In (name, info) items ->
    (forall e, In e items -> fst e <> name -> decodes e) ->
    getitem info "meta" = Ok (PDict m) ->
    dict_get m "_type" = Some (PStr "terms") ->
    getitem info "buckets" = Ok (PList bs) ->
    Forall2 (fun b tc => is_bucket b (fst tc) (PInt (snd tc))) bs typed ->
    base_process_results raw hl rc dp gs = Ok (PDict res) ->
    (forall rest, exists clause options,
       Compiler.terms_facet_options alias name
         (PDict (("order", PStr "reverse_count") :: rest))
       = Ok (clause, options)
       /\ getitem clause "meta"
          = Ok (PDict [("_type", PStr "terms");
                       ("order", PStr "reverse_count")]))
    /\ Compiler.terms_facet_options alias name
         (PDict [("order", PStr "reverse_count")])
       = Ok (PDict [("meta", PDict [("_type", PStr "terms");
                                    ("order", PStr "reverse_count")]);
                    ("terms", PDict [("field",
                       PStr (get_facet_fieldname alias name))])],
             PDict [])
    /\ (exists f d q out,
          _process_results raw hl rc dp gs
          = Ok (PDict (dict_set res "facets" (PDict (three f d q))))
          /\ dict_get f name = Some (PList (map pair_of out))
          /\ (dict_get m "order" = Some (PStr "reverse_count") ->
              Permutation typed out
              /\ StronglySorted count_le out
              /\ forall c, filter (fun p => snd p =? c) out
                           = filter (fun p => snd p =? c) typed)
          /\ (dict_get m "order" = None -> out = typed))
    /\ rbind (@process Reference.haystack authors_response)
             (fun results => getitem results "facets")
       = Ok (PDict (three
               [("author", PList [PTuple [PStr "B"; PInt 2];
                                  PTuple [PStr "A"; PInt 5];
                                  PTuple [PStr "C"; PInt 9]])] [] [])).
Proof.
  intros H alias name raw items info m bs typed hl rc dp gs res
         A ND I O M T B F R.
  split; [intro rest; apply CompilerSpec.terms_facet_order_meta|].
  split; [reflexivity | split; [|reflexivity]].
  pose proof (contribution_terms info m bs typed M T B F) as C.
  pose proof (all_decode items name info _ O ND I C) as D.
  destruct (process_results_entries raw items hl rc dp gs res A ND D R)
    as (f & d & q & P & L).
  specialize (L name info _ I C). cbn [holds] in L.
  exists f, d, q. eexists. split; [exact P|]. split; [exact L|]. split.
  - intros ->. cbn [eq_str String.eqb Ascii.eqb Bool.eqb].
    split; [apply SortFacts.sort_counts_perm|].
    split; [apply SortFacts.sort_counts_sorted|].
    intro c. apply SortFacts.sort_counts_stable.
  - intros ->. reflexivity.
Qed.

Lemma terms_reverse_count_order_witness :
  exists f d q out,
    @process Reference.haystack authors_response
    = Ok (PDict (dict_set [("results", PList []); ("hits", PInt 0);
                           ("facets", PDict []); ("spelling_suggestion", PNone)]
                   "facets" (PDict (three f d q))))
    /\ dict_get f "author" = Some (PList (map pair_of out))
    /\ StronglySorted count_le out.
Proof.
  destruct (terms_reverse_count_order Reference.haystack "default" "author"
              authors_response
              [("author", PDict [
                 ("meta", PDict [("_type", PStr "terms");
                                 ("order", PStr "reverse_count")]);
                 ("buckets", PList [bucket (PStr "A") (PInt 5);
                                    bucket (PStr "B") (PInt 2);
                                    bucket (PStr "C") (PInt 9)])])]
              (PDict [
                 ("meta", PDict [("_type", PStr "terms");
                                 ("order", PStr "reverse_count")]);
                 ("buckets", PList [bucket (PStr "A") (PInt 5);
                                    bucket (PStr "B") (PInt 2);
                                    bucket (PStr "C") (PInt 9)])])
              [("_type", PStr "terms"); ("order", PStr "reverse_count")]
              [bucket (PStr "A") (PInt 5); bucket (PStr "B") (PInt 2);
               bucket (PStr "C") (PInt 9)]
              [(PStr "A", 5); (PStr "B", 2); (PStr "C", 9)]
              (PBool false) PNone PNone (PBool false)
              [("results", PList []); ("hits", PInt 0);
               ("facets", PDict []); ("spelling_suggestion", PNone)])
    as (_ & _ & (f & d & q & out & P & L & S & _) & _).
  - reflexivity.
  - repeat constructor. intros [].
  - left. reflexivity.
  - intros e [<-|[]] N. now contradiction N.
  - reflexivity.
  - reflexivity.
  - reflexivity.
  - repeat constructor.
  - reflexivity.
  - exists f, d, q, out. split; [exact P|]. split; [exact L|].
    apply S. reflexivity.
Defined.

Section Dates.
Context {H : Haystack}.

Lemma rmap_date_pair bs : forall pairs,
  Forall2 decoded_date_bucket bs pairs -> rmap date_pair bs = Ok pairs.
Proof.
  induction 1 as [|b p bs pairs (key & c & secs & stamp & [K C] & D & U & ->) F IH];
    [reflexivity|].
  cbn [rmap]. unfold date_pair at 1.
  rewrite K. cbn [rbind py_truediv_int]. rewrite D. cbn [rbind].
  rewrite U. cbn [rbind]. rewrite C. cbn [rbind]. rewrite IH. reflexivity.
Qed.

Lemma contribution_dates info m bs pairs :
  getitem info "meta" = Ok (PDict m) ->
  dict_get m "_type" = Some (PStr "date_histogram") ->
  getitem info "buckets" = Ok (PList bs) ->
  Forall2 decoded_date_bucket bs pairs ->
  contribution_of info = Ok (Dates pairs).
Proof.
  intros M T B F. unfold contribution_of.
  rewrite M. cbn [rbind getitem]. rewrite T.
  cbn [rbind eq_str String.eqb Ascii.eqb Bool.eqb].
  rewrite B. cbn [rbind py_iter]. rewrite (rmap_date_pair _ _ F). reflexivity.
Qed.

Lemma contribution_unknown info meta tag :
  getitem info "meta" = Ok meta ->
  getitem meta "_type" = Ok tag ->
  tag <> PStr "terms" -> tag <> PStr "date_histogram" -> tag <> PStr "query" ->
  eq_str tag "terms" = false /\ eq_str tag "date_histogram" = false
  /\ eq_str tag "query" = false.
Proof.
  intros _ _ N1 N2 N3. destruct tag; cbn [eq_str]; auto.
  repeat split; apply String.eqb_neq; congruence.
Qed.

End Dates.

(** C6. For a date-histogram aggregation whose buckets have integer keys,
    the decoder stores under the facet's name, for every bucket, the pair
    of the timestamp and the count, where the timestamp is the conversion
    of the key divided by 1000: milliseconds become seconds before
    [utcfromtimestamp] sees them. Key 1000000000000 is converted as second
    1000000000, which is 2001-09-09 01:46:40; second 1000000000000 is not a
    date that a datetime can hold. *)
Theorem date_histogram_seconds :
  forall (H : Haystack) (name : string) (raw : pyval) (items : pydict)
         (info : pyval) (m : pydict) (bs pairs : list pyval)
         (hl rc dp gs : pyval) (res : pydict),
    getitem raw "aggregations" = Ok (PDict items) ->
    NoDup (map fst items) ->
    In (name, info) items ->
    (forall e, In e items -> fst e <> name -> decodes e) ->
    getitem info "meta" = Ok (PDict m) ->
    dict_get m "_type" = Some (PStr "date_histogram") ->
    getitem info "buckets" = Ok (PList bs) ->
    Forall2 decoded_date_bucket bs pairs ->
    base_process_results raw hl rc dp gs = Ok (PDict res) ->
    (exists f d q,
       _process_results raw hl rc dp gs
       = Ok (PDict (dict_set res "facets" (PDict (three f d q))))
       /\ dict_get d name = Some (PList pairs))
    /\ py_truediv_int (PInt 1000000000000) 1000 = Ok 1000000000%float
    /\ rbind (@process Reference.haystack dates_response)
             (fun results => getitem results "facets")
       = Ok (PDict (three []
               [("pub_date", PList [PTuple [
                   PDatetime (mkDatetime 2001 9 9 1 46 40 0); PInt 7]])] []))
    /\ Reference.utcfromtimestamp_impl 1000000000000%float
       = Raise (ValueError "year is out of range").
Proof.
  intros H name raw items info m bs pairs hl rc dp gs res A ND I O M T B F R.
  split; [|repeat split; vm_compute; reflexivity].
  pose proof (contribution_dates info m bs pairs M T B F) as C.
  pose proof (all_decode items name info _ O ND I C) as D.
  destruct (process_results_entries raw items hl rc dp gs res A ND D R)
    as (f & d & q & P & L).
  exists f, d, q. split; [exact P|]. exact (L name info _ I C).
Qed.

Lemma date_histogram_seconds_witness :
  exists f d q,
    @process Reference.haystack dates_response
    = Ok (PDict (dict_set [("results", PList []); ("hits", PInt 0);
                           ("facets", PDict []); ("spelling_suggestion", PNone)]
                   "facets" (PDict (three f d q))))
    /\ dict_get d "pub_date"
       = Some (PList [PTuple [PDatetime (mkDatetime 2001 9 9 1 46 40 0); PInt 7]]).
Proof.
  destruct (date_histogram_seconds Reference.haystack "pub_date" dates_response
              [("pub_date", PDict [
                 ("meta", PDict [("_type", PStr "date_histogram")]);
                 ("buckets", PList [bucket (PInt 1000000000000) (PInt 7)])])]
              (PDict [
                 ("meta", PDict [("_type", PStr "date_histogram")]);
                 ("buckets", PList [bucket (PInt 1000000000000) (PInt 7)])])
              [("_type", PStr "date_histogram")]
              [bucket (PInt 1000000000000) (PInt 7)]
              [PTuple [PDatetime (mkDatetime 2001 9 9 1 46 40 0); PInt 7]]
              (PBool false) PNone PNone (PBool false)
              [("results", PList []); ("hits", PInt 0);
               ("facets", PDict []); ("spelling_suggestion", PNone)])
    as (P & _).
  - reflexivity.
  - repeat constructor. intros [].
  - left. reflexivity.
  - intros e [<-|[]] N. now contradiction N.
  - reflexivity.
  - reflexivity.
  - reflexivity.
  - constructor; [|constructor].
    exists 1000000000000, (PInt 7), 1000000000%float,
      (mkDatetime 2001 9 9 1 46 40 0).
    repeat split; vm_compute; reflexivity.
  - reflexivity.
  - exact P.
Defined.

(** C10. An aggregation entry whose metadata type tag is none of "terms",
    "date_histogram" and "query" is passed over: the loop body returns the
    facets it was given, without an error, and the facets decoded from the
    response are those decoded from the response without that entry, so
    the entries of known type are decoded as if it were not there. The
    code has one behaviour for every build. *)
Theorem unknown_facet_type_ignored :
  forall (H : Haystack) (name : string) (info meta tag : pyval),
    getitem info "meta" = Ok meta ->
    getitem meta "_type" = Ok tag ->
    tag <> PStr "terms" ->
    tag <> PStr "date_histogram" ->
    tag <> PStr "query" ->
    (forall facets, decode_facet facets name info = Ok facets)
    /\ (forall before after rest,
          decode_facets
            (PDict (("aggregations", PDict (before ++ (name, info) :: after))
                    :: rest))
          = decode_facets
              (PDict (("aggregations", PDict (before ++ after)) :: rest)))
    /\ (forall before after rest hl rc dp gs,
          let raw := PDict (("aggregations",
                             PDict (before ++ (name, info) :: after)) :: rest) in
          _process_results raw hl rc dp gs
          = rbind (base_process_results raw hl rc dp gs) (fun results =>
            rbind (decode_facets
                     (PDict (("aggregations", PDict (before ++ after)) :: rest)))
                  (fun facets => setitem results "facets" (PDict facets)))).
Proof.
  intros H name info meta tag M T N1 N2 N3.
  destruct (contribution_unknown info meta tag M T N1 N2 N3) as (E1 & E2 & E3).
  assert (S : forall facets, decode_facet facets name info = Ok facets).
  { intro facets. unfold decode_facet. rewrite M. cbn [rbind].
    rewrite T. cbn [rbind]. now rewrite E1, E2, E3. }
  assert (D : forall before after rest,
             decode_facets
               (PDict (("aggregations", PDict (before ++ (name, info) :: after))
                       :: rest))
             = decode_facets
                 (PDict (("aggregations", PDict (before ++ after)) :: rest))).
  { intros before after rest. unfold decode_facets.
    cbn [py_in dict_has dict_get String.eqb Ascii.eqb Bool.eqb rbind getitem
         py_items].
    rewrite !rfold_app. cbn [rfold]. 
    destruct (rfold _ before _) as [facets|e]; cbn [rbind]; [|reflexivity].
    rewrite S. reflexivity. }
  split; [exact S | split; [exact D|]].
  intros before after rest hl rc dp gs raw. unfold _process_results.
  subst raw. rewrite D. reflexivity.
Qed.

Lemma unknown_facet_type_ignored_witness :
  rbind (@process Reference.haystack mixed_response)
        (fun results => getitem results "facets")
  = Ok (PDict (three [("author", PList [PTuple [PStr "A"; PInt 5]])] []
                 [("recent", PInt 4)])).
Proof.
  destruct (unknown_facet_type_ignored Reference.haystack "price"
              (PDict [("meta", PDict [("_type", PStr "range")]);
                      ("buckets", PList [bucket (PStr "*-10") (PInt 3)])])
              (PDict [("_type", PStr "range")]) (PStr "range")
              eq_refl eq_refl
              ltac:(discriminate) ltac:(discriminate) ltac:(discriminate))
    as (_ & _ & P).
  unfold process, mixed_response.
  rewrite (P [("author", PDict [
                 ("meta", PDict [("_type", PStr "terms")]);
                 ("buckets", PList [bucket (PStr "A") (PInt 5)])])]
             [("recent", PDict [
                 ("meta", PDict [("_type", PStr "query")]);
                 ("doc_count", PInt 4)])] []).
  reflexivity.
Defined.

(** C2, as the code has it. For a raw response without an "aggregations"
    member, the decoded result has a "facets" member and it is the empty
    mapping: none of "fields", "dates" and "queries" is in it. *)
Theorem no_aggregations_empty_facets :
  forall (H : Haystack) (raw hl rc dp gs : pyval) (res : pydict),
    py_in "aggregations" raw = Ok false ->
    base_process_results raw hl rc dp gs = Ok (PDict res) ->
    _process_results raw hl rc dp gs
    = Ok (PDict (dict_set res "facets" (PDict [])))
    /\ getitem (PDict (dict_set res "facets" (PDict []))) "facets" = Ok (PDict [])
    /\ forall k, getitem (PDict []) k = Raise (KeyError k).
Proof.
  intros H raw hl rc dp gs res A B. split; [|split].
  - unfold _process_results, decode_facets. rewrite B, A. reflexivity.
  - apply getitem_dict, dict_get_set_eq.
  - reflexivity.
Qed.

Lemma no_aggregations_empty_facets_witness :
  @process Reference.haystack (PDict [("hits", PDict [("total", PInt 3)])])
  = Ok (PDict [("results", PList []); ("hits", PInt 3); ("facets", PDict []);
               ("spelling_suggestion", PNone)]).
Proof.
  destruct (no_aggregations_empty_facets Reference.haystack
              (PDict [("hits", PDict [("total", PInt 3)])])
              (PBool false) PNone PNone (PBool false)
              [("results", PList []); ("hits", PInt 3); ("facets", PDict []);
               ("spelling_suggestion", PNone)])
    as (P & _); [reflexivity | reflexivity |].
  exact P.
Defined.

(** C2, as the specification states it, fails: for the empty response the
    decoded facets are not the structure of three empty mappings. *)
Lemma no_aggregations_three_mappings_fails :
  ~ (forall raw : pyval,
       py_in "aggregations" raw = Ok false ->
       exists results,
         @process Reference.haystack raw = Ok results
         /\ getitem results "facets" = Ok empty_mappings).
Proof.
  intro C. destruct (C (PDict []) eq_refl) as (results & P & F).
  vm_compute in P. inversion P; subst results. discriminate F.
Qed.

End DecoderSpec.

(** ** Order of strings *)

Module StringOrder.
Import Vocabulary.

Lemma compare_lt_trans : forall s1 s2 s3,
  String.compare s1 s2 = Lt -> String.compare s2 s3 = Lt ->
  String.compare s1 s3 = Lt.
Proof.
  induction s1 as [|a1 s1 IH]; intros [|a2 s2] [|a3 s3]; cbn; try congruence.
  unfold Ascii.compare.
  destruct (N.compare_spec (N_of_ascii a1) (N_of_ascii a2)) as [E12|L12|G12];
    try discriminate;
  destruct (N.compare_spec (N_of_ascii a2) (N_of_ascii a3)) as [E23|L23|G23];
    try discriminate; intros C12 C23.
  - rewrite E12, E23, N.compare_refl. now apply IH with s2.
  - rewrite E12. now apply N.compare_lt_iff in L23 as ->.
  - rewrite <- E23. now apply N.compare_lt_iff in L12 as ->.
  - assert (L : (N_of_ascii a1 < N_of_ascii a3)%N) by lia.
    now apply N.compare_lt_iff in L as ->.
Qed.

Lemma string_le_trans s1 s2 s3 :
  string_le s1 s2 -> string_le s2 s3 -> string_le s1 s3.
Proof.
  unfold string_le, String.leb.
  destruct (String.compare s1 s2) eqn:C12; try discriminate;
  destruct (String.compare s2 s3) eqn:C23; try discriminate; intros _ _.
  - apply String.compare_eq_iff in C12. subst s2. now rewrite C23.
  - apply String.compare_eq_iff in C12. subst s2. now rewrite C23.
  - apply String.compare_eq_iff in C23. subst s3. now rewrite C12.
  - now rewrite (compare_lt_trans _ _ _ C12 C23).
Qed.

Lemma ltb_le y x : String.ltb y x = true -> string_le y x.
Proof.
  unfold string_le, String.ltb, String.leb.
  destruct (String.compare y x); congruence.
Qed.

Lemma not_ltb_le y x : String.ltb y x = false -> string_le x y.
Proof.
  unfold string_le, String.ltb, String.leb.
  rewrite (String.compare_antisym x y).
  destruct (String.compare y x); cbn; congruence.
Qed.

Lemma insert_string_perm x l : Permutation (x :: l) (insert_string x l).
Proof.
  induction l as [|y l IH]; cbn; [apply Permutation_refl|].
  destruct (String.ltb y x); [|apply Permutation_refl].
  eapply perm_trans; [apply perm_swap|]. now apply perm_skip.
Qed.

Lemma sorted_strings_perm l : Permutation l (sorted_strings l).
Proof.
  induction l as [|x l IH]; cbn; [constructor|].
  eapply perm_trans; [apply perm_skip, IH|]. apply insert_string_perm.
Qed.

Lemma insert_string_sorted x l :
  StronglySorted string_le l -> StronglySorted string_le (insert_string x l).
Proof.
  induction 1 as [|y l S IH F]; cbn.
  - constructor; constructor.
  - destruct (String.ltb y x) eqn:L.
    + constructor; [exact IH|].
      eapply Permutation_Forall; [apply insert_string_perm|].
      constructor; [now apply ltb_le | exact F].
    + apply not_ltb_le in L.
      constructor; [constructor; assumption|].
      constructor; [exact L|].
      eapply Forall_impl; [|exact F].
      intros z Z. now apply string_le_trans with y.
Qed.

Lemma sorted_strings_sorted l : StronglySorted string_le (sorted_strings l).
Proof.
  induction l as [|x l IH]; cbn; [constructor|]. now apply insert_string_sorted.
Qed.

End StringOrder.

(** ** Similarity query *)

Module SimilaritySpec.
Import Backend Vocabulary.

Section Queries.
Context {H : Haystack}.

Lemma positive_length {A} (x : A) (l : list A) :
  (0 <? Z.of_nat (length (x :: l))) = true.
Proof. apply Z.ltb_lt. cbn [length]. lia. Qed.

Lemma mlt_query_cases field_name doc_id additional models limit :
  mlt_query field_name doc_id additional models limit
  = match narrow_queries additional models limit with
    | [] => PDict [("query", mlt_clause field_name doc_id)]
    | narrow => mlt_wrapped field_name doc_id narrow
    end.
Proof.
  unfold mlt_query.
  destruct (narrow_queries additional models limit) as [|n narrow];
    [reflexivity|].
  rewrite positive_length. reflexivity.
Qed.

Lemma narrow_queries_parts additional models limit :
  narrow_queries additional models limit
  = (match additional with
     | Some s =>
         if String.eqb s EmptyString || String.eqb s "*:*" then []
         else [query_string_filter s]
     | None => []
     end
     ++ match model_choices models limit with
        | [] => []
        | names => [types_filter names]
        end)%list.
Proof.
  unfold narrow_queries.
  destruct (model_choices models limit) as [|n names] eqn:C.
  - cbn [length Z.of_nat Z.ltb Z.compare]. rewrite app_nil_r.
    destruct additional as [s|]; [|reflexivity].
    cbn [truthy]. destruct (String.eqb s EmptyString), (String.eqb s "*:*"); reflexivity.
  - rewrite positive_length.
    destruct additional as [s|]; [|reflexivity].
    cbn [truthy]. destruct (String.eqb s EmptyString), (String.eqb s "*:*"); reflexivity.
Qed.

End Queries.

(** C7. The body of a similarity query is the bare more_like_this clause
    when no narrowing query accumulates, and otherwise a bool clause whose
    [must] is the more_like_this clause and whose [filter] is a bool/must
    group of all the narrowing queries, also when there is only one. The
    narrowing queries are the additional query string, unless it is
    missing, empty or the match-everything sentinel, followed by the
    restriction to entity types, unless there is none. *)
Theorem similarity_query_wrapping :
  forall (H : Haystack) (field_name doc_id : string)
         (additional : option string) (models : option (list model))
         (limit : option bool),
    mlt_query field_name doc_id additional models limit
    = match narrow_queries additional models limit with
      | [] => PDict [("query", mlt_clause field_name doc_id)]
      | narrow =>
          PDict [("query", PDict [("bool", PDict [
            ("must", mlt_clause field_name doc_id);
            ("filter", PDict [("bool", PDict [("must", PList narrow)])])])])]
      end
    /\ narrow_queries additional models limit
       = (match additional with
          | Some s =>
              if String.eqb s EmptyString || String.eqb s "*:*" then []
              else [query_string_filter s]
          | None => []
          end
          ++ match model_choices models limit with
             | [] => []
             | names => [types_filter names]
             end)%list
    /\ mlt_query field_name doc_id None None (Some false)
       = PDict [("query", mlt_clause field_name doc_id)]
    /\ mlt_query field_name doc_id (Some "*:*") (Some []) (Some false)
       = PDict [("query", mlt_clause field_name doc_id)]
    /\ (forall m : model,
          mlt_query field_name doc_id None (Some [m]) (Some false)
          = mlt_wrapped field_name doc_id [types_filter [get_model_ct m]]).
Proof.
  intros. split; [apply mlt_query_cases|]. split; [apply narrow_queries_parts|].
  split; [reflexivity|]. split; [reflexivity|]. intro m. reflexivity.
Qed.

(** C3, as the code has it. For a non-empty explicit list of models, the
    entity types of the restriction are the canonical type names of the
    models of the list in ascending order, one name for each element of
    the list: a model listed twice gives its name twice. The restriction
    is the last narrowing query of the similarity query. *)
Theorem explicit_models_sorted :
  forall (H : Haystack) (m : model) (ms : list model) (limit : option bool)
         (field_name doc_id : string) (additional : option string),
    let names := model_choices (Some (m :: ms)) limit in
    names = sorted_strings (map get_model_ct (m :: ms))
    /\ Permutation (map get_model_ct (m :: ms)) names
    /\ StronglySorted string_le names
    /\ exists front,
         narrow_queries additional (Some (m :: ms)) limit
         = (front ++ [types_filter names])%list
         /\ mlt_query field_name doc_id additional (Some (m :: ms)) limit
            = mlt_wrapped field_name doc_id (front ++ [types_filter names]).
Proof.
  intros H m ms limit field_name doc_id additional. cbv zeta.
  assert (E : model_choices (Some (m :: ms)) limit
              = sorted_strings (map get_model_ct (m :: ms))).
  { unfold model_choices. destruct limit as [[|]|]; reflexivity. }
  assert (P : Permutation (map get_model_ct (m :: ms))
                (model_choices (Some (m :: ms)) limit))
    by (rewrite E; apply StringOrder.sorted_strings_perm).
  split; [exact E|]. split; [exact P|].
  split; [rewrite E; apply StringOrder.sorted_strings_sorted|].
  exists (match additional with
          | Some s =>
              if String.eqb s EmptyString || String.eqb s "*:*" then []
              else [query_string_filter s]
          | None => []
          end).
  rewrite mlt_query_cases, narrow_queries_parts.
  destruct (model_choices (Some (m :: ms)) limit) as [|n names'];
    [apply Permutation_length in P; discriminate P|].
  split; [reflexivity|].
  destruct additional as [s|]; [|reflexivity].
  destruct (String.eqb s EmptyString || String.eqb s "*:*"); reflexivity.
Qed.

(** C3, as the specification states it, fails: a model given twice has its
    type name twice in the restriction. *)
Lemma explicit_models_not_deduplicated :
  ~ (forall models : list (@model Reference.haystack),
       models <> [] ->
       NoDup (@model_choices Reference.haystack (Some models) None)).
Proof.
  intro C.
  assert (N : ["core.b"; "core.a"; "core.b"] <> @nil (@model Reference.haystack))
    by discriminate.
  specialize (C _ N). vm_compute in C.
  inversion C as [|x l _ C1]; subst.
  inversion C1 as [|y l' Nin _]; subst.
  apply Nin. left. reflexivity.
Qed.

End SimilaritySpec.

(** ** Transport failures *)

Module BackendSpec.
Import Backend Vocabulary MonadM.

Section Failures.
Context {H : Haystack} {E : Engine}.


(** The search of [more_like_this] carries the body [mlt_query], and its
    answer goes through [_process_results]. *)
Lemma more_like_this_search_returns
    (model_instance : instance) (additional : option string)
    (start_offset end_offset : option Z) (models : option (list model))
    (limit : option bool) (result_class : pyval)
    (w w1 : world) (field_name : string) (params : pydict)
    (s : server) (raw_results : pyval) :
  ensure_setup w = (w1, Ok tt) ->
  get_content_field (connection_alias (self w1)) (concrete_model model_instance)
  = Ok field_name ->
  mlt_params start_offset end_offset = Ok params ->
  es_search
    (mlt_query field_name (get_identifier model_instance) additional models limit)
    (index_name (self w1)) "modelresult" (("_source", PBool true) :: params)
    (conn w1)
  = (s, Ok raw_results) ->
  more_like_this model_instance additional start_offset end_offset models
    limit result_class w
  = (with_conn w1 s,
     Decoder._process_results raw_results (PBool false) result_class PNone
       (PBool false)).
Proof.
  intros S F P R.
  unfold more_like_this, bind at 1. rewrite S.
  unfold bind at 1, get_self at 1, bind at 1, lift at 1. rewrite F.
  unfold bind at 1, lift at 1. rewrite P.
  unfold bind at 1, try_except, request. rewrite R.
  reflexivity.
Qed.


(** A transport failure of the scroll or of the bulk deletion, in a
    partial clear. *)
Lemma clear_models_bulk_fails (models : list model) (commit : bool)
    (w : world) (s : server) (status : Z) (info : string) :
  es_bulk
    (delete_actions (es_scan (clear_query models) (index_name (self w))
                       "modelresult"))
    (index_name (self w)) "modelresult" (conn w)
  = (s, Raise (TransportError status info)) ->
  clear (Some models) commit w
  = if silently_fail (self w) then
      (with_log (with_conn w s)
         (mkLog "Failed to clear Elasticsearch index of models '%s': %s"
            [PStr (join "," (models_to_delete models))]
            (TransportError status info)), Ok tt)
    else (with_conn w s, Raise (TransportError status info)).
Proof.
  intro B.
  unfold clear, try_except, bind, get_self at 1, request.
  unfold clear_query in B. rewrite B.
  cbn [is_TransportError].
  unfold bind, get_self, raise, log_error, with_log, with_conn.
  cbn [self conn logged].
  destruct (silently_fail (self w)); reflexivity.
Qed.



(** A full clear whose index deletion returns. *)
Lemma clear_all_returns (commit : bool) (w : world) (s : server) (r : pyval) :
  es_indices_delete (index_name (self w)) [404] (conn w) = (s, Ok r) ->
  clear None commit w = (mkWorld E (reset (self w)) s (logged w), Ok tt).
Proof.
  intro D.
  unfold clear, try_except, bind, get_self at 1, request. rewrite D.
  reflexivity.
Qed.

End Failures.




(** C9, as the code has it. On an engine that does not have the index, a
    full clear returns without an error whatever the configuration: the
    404 of the deletion is ignored, the engine is left as it was and the
    cached state of the backend is reset. A partial clear that follows
    meets the 404 of the scroll: it is logged and the clear returns,
    leaving everything as it was, when the backend fails silently; it is
    raised to the caller when the backend does not. *)
Theorem clear_missing_index :
  forall (H : Haystack) (E : Engine) (w : world) (models : list model)
         (commit : bool) (ack : pyval) (info : string),
    es_indices_delete (index_name (self w)) [404] (conn w) = (conn w, Ok ack) ->
    es_bulk
      (delete_actions (es_scan (clear_query models) (index_name (self w))
                         "modelresult"))
      (index_name (self w)) "modelresult" (conn w)
    = (conn w, Raise (TransportError 404 info)) ->
    let w' := mkWorld E (reset (self w)) (conn w) (logged w) in
    clear None commit w = (w', Ok tt)
    /\ clear (Some models) commit w'
       = if silently_fail (self w) then
           (with_log w' (clear_failure (Some models) (TransportError 404 info)),
            Ok tt)
         else (w', Raise (TransportError 404 info)).
Proof.
  intros H E w models commit ack info D B w'. split.
  - now apply clear_all_returns with ack.
  - rewrite (clear_models_bulk_fails models commit w' (conn w) 404 info B).
    reflexivity.
Qed.

Lemma clear_missing_index_witness :
  (@clear Reference.haystack Reference.engine None true (lost_world true)
   = (mkWorld Reference.engine (reset (Reference.default_backend true)) [] [],
      Ok tt)
   /\ @clear Reference.haystack Reference.engine (Some ["core.mockmodel"]) true
        (mkWorld Reference.engine (reset (Reference.default_backend true)) [] [])
      = (mkWorld Reference.engine (reset (Reference.default_backend true)) []
           [@clear_failure Reference.haystack (Some ["core.mockmodel"])
              Reference.index_not_found],
         Ok tt))
  /\ (@clear Reference.haystack Reference.engine None true (lost_world false)
      = (mkWorld Reference.engine (reset (Reference.default_backend false)) [] [],
         Ok tt)
      /\ @clear Reference.haystack Reference.engine (Some ["core.mockmodel"])
           true
           (mkWorld Reference.engine (reset (Reference.default_backend false))
              [] [])
         = (mkWorld Reference.engine (reset (Reference.default_backend false))
              [] [],
            Raise Reference.index_not_found)).
Proof.
  split.
  - apply (clear_missing_index Reference.haystack Reference.engine
             (lost_world true) ["core.mockmodel"] true
             (PDict [("status", PInt 404)]) "index_not_found_exception");
      reflexivity.
  - apply (clear_missing_index Reference.haystack Reference.engine
             (lost_world false) ["core.mockmodel"] true
             (PDict [("status", PInt 404)]) "index_not_found_exception");
      reflexivity.
Defined.

(** C9, as the specification states it, fails: after a full clear of a
    missing index, the partial clear of a backend that does not fail
    silently raises the 404 of the engine. *)
Lemma partial_clear_missing_index_raises :
  ~ (forall silent : bool,
       snd (@clear Reference.haystack Reference.engine
              (Some ["core.mockmodel"]) true
              (fst (@clear Reference.haystack Reference.engine None true
                      (lost_world silent))))
       = Ok tt).
Proof.
  intro C. specialize (C false). vm_compute in C. discriminate C.
Qed.

End BackendSpec.

(** ** More on dictionaries *)

Module DictMore.
Import DictFacts.

Lemma dict_get_None d k : dict_get d k = None <-> ~ In k (map fst d).
Proof.
  induction d as [|[k' v] d IH]; cbn; [tauto|].
  destruct (String.eqb_spec k k') as [->|N].
  - split; [discriminate | tauto].
  - rewrite IH. split; [intros A [B|B]; [congruence | tauto] | tauto].
Qed.

Lemma dict_get_In d k v : dict_get d k = Some v -> In (k, v) d.
Proof.
  induction d as [|[k' v'] d IH]; cbn; [discriminate|].
  destruct (String.eqb_spec k k') as [->|N].
  - intros [= ->]. now left.
  - intro G. right. now apply IH.
Qed.

Lemma In_dict_get d k v : NoDup (map fst d) -> In (k, v) d -> dict_get d k = Some v.
Proof.
  induction d as [|[k' v'] d IH]; cbn; [tauto|].
  intros ND I. inversion ND as [|x l Nin ND']; subst.
  destruct I as [[= -> ->]|I].
  - now rewrite String.eqb_refl.
  - destruct (String.eqb_spec k k') as [->|N]; [|now apply IH].
    exfalso. apply Nin. change k' with (fst (k', v)). now apply in_map.
Qed.

Lemma dict_del_keys d k k' :
  In k (map fst (dict_del d k')) -> In k (map fst d).
Proof.
  induction d as [|[k0 v0] d IH]; cbn; [tauto|].
  destruct (String.eqb k' k0); cbn; tauto.
Qed.

Lemma dict_del_NoDup d k : NoDup (map fst d) -> NoDup (map fst (dict_del d k)).
Proof.
  induction d as [|[k0 v0] d IH]; cbn; [auto|].
  intro ND. inversion ND as [|x l Nin ND']; subst.
  destruct (String.eqb k k0); cbn; [assumption|].
  constructor; [|now apply IH].
  intro I. apply Nin. now apply dict_del_keys with k.
Qed.

Lemma dict_get_del_eq d k : NoDup (map fst d) -> dict_get (dict_del d k) k = None.
Proof.
  induction d as [|[k0 v0] d IH]; cbn; [reflexivity|].
  intro ND. inversion ND as [|x l Nin ND']; subst.
  destruct (String.eqb_spec k k0) as [->|N].
  - now apply dict_get_None.
  - cbn. destruct (String.eqb_spec k k0); [contradiction|]. now apply IH.
Qed.

Lemma dict_get_del_neq d k k' :
  k <> k' -> dict_get (dict_del d k') k = dict_get d k.
Proof.
  intro N. induction d as [|[k0 v0] d IH]; cbn; [reflexivity|].
  destruct (String.eqb_spec k' k0) as [->|N'].
  - destruct (String.eqb_spec k k0); [contradiction | reflexivity].
  - cbn. destruct (String.eqb k k0); auto.
Qed.

Lemma dict_del_absent d k : dict_get d k = None -> dict_del d k = d.
Proof.
  induction d as [|[k0 v0] d IH]; cbn; [reflexivity|].
  destruct (String.eqb k k0); [discriminate|].
  intro G. now rewrite IH.
Qed.

(** [d.update(e)]: the values of [e] win, the other keys keep theirs. *)
Lemma dict_get_update e : forall d k,
  NoDup (map fst e) ->
  dict_get (dict_update d e) k
  = match dict_get e k with
    | Some v => Some v
    | None => dict_get d k
    end.
Proof.
  unfold dict_update.
  induction e as [|[k0 v0] e IH]; intros d k ND; cbn; [reflexivity|].
  inversion ND as [|x l Nin ND']; subst.
  rewrite IH by assumption.
  destruct (String.eqb_spec k k0) as [->|N].
  - apply dict_get_None in Nin. rewrite Nin. apply dict_get_set_eq.
  - destruct (dict_get e k); [reflexivity|]. now apply dict_get_set_neq.
Qed.

Lemma dict_set_absent d k v :
  ~ In k (map fst d) -> dict_set d k v = (d ++ [(k, v)])%list.
Proof.
  induction d as [|[k0 v0] d IH]; cbn; [reflexivity|].
  intro N. destruct (String.eqb_spec k k0) as [->|_]; [tauto|].
  rewrite IH by tauto. reflexivity.
Qed.

Lemma dict_set_middle l1 l2 k v v' :
  ~ In k (map fst l1) ->
  dict_set (l1 ++ (k, v) :: l2)%list k v' = (l1 ++ (k, v') :: l2)%list.
Proof.
  induction l1 as [|[k0 v0] l1 IH]; cbn.
  - now rewrite String.eqb_refl.
  - intro N. destruct (String.eqb_spec k k0) as [->|_]; [tauto|].
    rewrite IH by tauto. reflexivity.
Qed.

End DictMore.

(** ** Default query, fields and highlight *)

Module KwargsSpec.
Import Kwargs Notions DictFacts DictMore.

(** X1. The highlight clause is the default one, which asks for the
    content field, overridden key by key by the caller's dictionary: a key
    of the caller's dictionary has the caller's value, also the key
    "fields", in which case the content field is no longer asked for; any
    other key has its default. A highlight that is not a dictionary (such
    as [True]) leaves the default clause. *)
Theorem highlight_caller_overrides :
  forall (content_field : string) (d : pydict),
    NoDup (map fst d) ->
    (forall k,
       dict_get (_build_search_kwargs_highlight content_field (PDict d)) k
       = match dict_get d k with
         | Some v => Some v
         | None =>
             if String.eqb k "fields"
             then Some (PDict [(content_field, PDict [])])
             else None
         end)
    /\ (forall fields,
          dict_get d "fields" = Some fields ->
          getitem (PDict (_build_search_kwargs_highlight content_field (PDict d)))
            "fields" = Ok fields)
    /\ (forall highlight,
          (forall e, highlight <> PDict e) ->
          _build_search_kwargs_highlight content_field highlight
          = [("fields", PDict [(content_field, PDict [])])]).
Proof.
  intros content_field d ND.
  assert (L : forall k,
             dict_get (_build_search_kwargs_highlight content_field (PDict d)) k
             = match dict_get d k with
               | Some v => Some v
               | None =>
                   if String.eqb k "fields"
                   then Some (PDict [(content_field, PDict [])])
                   else None
               end).
  { intro k. unfold _build_search_kwargs_highlight.
    rewrite dict_get_update by assumption. reflexivity. }
  split; [exact L|]. split.
  - intros fields G. apply getitem_dict. now rewrite L, G.
  - intros highlight N. destruct highlight; try reflexivity.
    now contradiction (N d0).
Qed.

Lemma highlight_caller_overrides_witness :
  getitem
    (PDict (_build_search_kwargs_highlight "text"
              (PDict [("fields", PDict [("title", PDict [])]);
                      ("pre_tags", PList [PStr "<b>"])])))
    "fields"
  = Ok (PDict [("title", PDict [])]).
Proof.
  apply (highlight_caller_overrides "text"
           [("fields", PDict [("title", PDict [])]);
            ("pre_tags", PList [PStr "<b>"])]).
  - repeat constructor; cbn; intuition discriminate.
  - reflexivity.
Defined.

Lemma py_join_strings sep (l : list string) :
  py_join sep (map PStr l) = Ok (join sep l).
Proof.
  unfold py_join.
  assert (R : rmap (fun x => match x with
                             | PStr s => Ok s
                             | _ => Raise (TypeError "sequence item: expected str instance")
                             end) (map PStr l) = Ok l).
  { induction l as [|x l IH]; [reflexivity|]. cbn [map rmap rbind].
    rewrite IH. reflexivity. }
  rewrite R. reflexivity.
Qed.

(** X2. The field restriction is always passed under the key
    "stored_fields". A non-empty list of field names is joined with single
    spaces, so that a list of one name gives what the name alone gives; a
    value that is empty ([None], the empty string, the empty list) and a
    tuple are passed as they are; a non-empty list that holds something
    else than strings is refused with a [TypeError]. *)
Theorem stored_fields_normalised :
  (forall (f : string) (fs : list string),
     _build_search_kwargs_fields (PList (map PStr (f :: fs)))
     = Ok ("stored_fields", PStr (join " " (f :: fs))))
  /\ (forall f : string,
        _build_search_kwargs_fields (PList [PStr f])
        = _build_search_kwargs_fields (PStr f))
  /\ (forall fields : pyval,
        truthy fields = false ->
        _build_search_kwargs_fields fields = Ok ("stored_fields", fields))
  /\ (forall l : list pyval,
        _build_search_kwargs_fields (PTuple l) = Ok ("stored_fields", PTuple l))
  /\ (forall (before : list string) (x : pyval) (after : list pyval),
        (forall s, x <> PStr s) ->
        exists what,
          _build_search_kwargs_fields
            (PList (map PStr before ++ x :: after)%list)
          = Raise (TypeError what)).
Proof.
  split; [|split; [|split; [|split]]].
  - intros f fs. unfold _build_search_kwargs_fields.
    cbn [truthy map]. change (PStr f :: map PStr fs) with (map PStr (f :: fs)).
    rewrite py_join_strings. reflexivity.
  - intro f. unfold _build_search_kwargs_fields. cbn.
    destruct (String.eqb f EmptyString); reflexivity.
  - intros fields T. unfold _build_search_kwargs_fields. rewrite T. reflexivity.
  - intro l. unfold _build_search_kwargs_fields.
    destruct (truthy (PTuple l)); reflexivity.
  - intros before x after N. unfold _build_search_kwargs_fields.
    assert (T : truthy (PList (map PStr before ++ x :: after)%list) = true)
      by (destruct before; reflexivity).
    rewrite T. unfold py_join.
    induction before as [|b before IH].
    + cbn [map app rmap]. destruct x; cbn [rbind]; eauto.
      now contradiction (N s).
    + cbn [map app rmap rbind].
      destruct IH as [what IH]; [destruct before; reflexivity|].
      destruct (rmap _ (map PStr before ++ x :: after)%list) as [items|e];
        cbn [rbind] in *; [discriminate IH|].
      exists what. congruence.
Qed.

Lemma stored_fields_normalised_witness :
  _build_search_kwargs_fields PNone = Ok ("stored_fields", PNone)
  /\ exists what,
       _build_search_kwargs_fields (PList [PStr "title"; PInt 1; PStr "author"])
       = Raise (TypeError what).
Proof.
  destruct stored_fields_normalised as (_ & _ & Falsy & _ & Mixed).
  split.
  - apply Falsy. reflexivity.
  - apply (Mixed ["title"] (PInt 1) [PStr "author"]). discriminate.
Defined.

End KwargsSpec.

(** ** Facets of the request *)

Module FacetsSpec.
Import Compiler Notions Vocabulary DictFacts DictMore.

Section Terms.
Context {H : Haystack}.

(** The loop body on a dictionary of options: the clause, and the options
    without the special ones. *)
Lemma terms_facet_options_dict alias name options :
  terms_facet_options alias name (PDict options)
  = Ok (terms_clause alias name options, PDict (strip options)).
Proof.
  unfold terms_facet_options, terms_clause, strip.
  cbn [py_in rbind]. unfold dict_has.
  destruct (dict_get options "order") as [o|] eqn:O; cbn [rbind py_pop];
    rewrite ?O; cbn [rbind py_pop_default];
    rewrite ?(dict_del_absent options "order" O);
    unfold dict_get_default;
    match goal with
    | |- context [dict_get ?d "global_scope"] =>
        destruct (dict_get d "global_scope") as [g|] eqn:G
    end;
    cbn [rbind]; rewrite ?(dict_del_absent _ _ G);
    try destruct (truthy g); cbn [truthy py_in rbind]; unfold dict_has;
    match goal with
    | |- context [dict_get ?d "facet_filter"] =>
        destruct (dict_get d "facet_filter") as [f|] eqn:F
    end;
    cbn [rbind py_pop py_update]; rewrite ?F; cbn [rbind py_update];
    rewrite ?(dict_del_absent _ _ F); reflexivity.
Qed.

Lemma strip_NoDup options :
  NoDup (map fst options) -> NoDup (map fst (strip options)).
Proof. intro ND. unfold strip. now repeat apply dict_del_NoDup. Qed.

Lemma strip_get options k :
  NoDup (map fst options) ->
  dict_get (strip options) k
  = if special_option k then None else dict_get options k.
Proof.
  intro ND. unfold strip, special_option.
  destruct (String.eqb_spec k "order") as [->|N1]; cbn [orb].
  - rewrite !dict_get_del_neq by discriminate. now apply dict_get_del_eq.
  - destruct (String.eqb_spec k "global_scope") as [->|N2]; cbn [orb].
    + rewrite dict_get_del_neq by discriminate.
      now apply dict_get_del_eq, dict_del_NoDup.
    + destruct (String.eqb_spec k "facet_filter") as [->|N3].
      * now apply dict_get_del_eq; repeat apply dict_del_NoDup.
      * now rewrite !dict_get_del_neq.
Qed.

Lemma strip_strip options :
  NoDup (map fst options) -> strip (strip options) = strip options.
Proof.
  intro ND. unfold strip at 1.
  rewrite (dict_del_absent (strip options) "order")
    by (now rewrite strip_get).
  rewrite (dict_del_absent (strip options) "global_scope")
    by (now rewrite strip_get).
  apply dict_del_absent. now rewrite strip_get.
Qed.

(** Options without special ones compile to the plain clause. *)
Lemma terms_clause_strip alias name options :
  NoDup (map fst options) ->
  terms_clause alias name (strip options)
  = PDict [("meta", PDict [("_type", PStr "terms")]);
           ("terms", PDict (dict_update
                              [("field", PStr (get_facet_fieldname alias name))]
                              (strip options)))].
Proof.
  intro ND. unfold terms_clause.
  rewrite (strip_strip options ND).
  rewrite (strip_get options "order" ND). cbn [special_option String.eqb orb].
  rewrite (dict_del_absent (strip options) "order")
    by (now rewrite strip_get).
  unfold dict_get_default. rewrite (strip_get options "global_scope" ND).
  cbn [truthy].
  rewrite (dict_del_absent (strip options) "global_scope")
    by (now rewrite strip_get).
  now rewrite (strip_get options "facet_filter" ND).
Qed.

End Terms.

(** X4. For the options of a terms facet (a dictionary), the terms clause
    of the compiled aggregation holds every option that is not "order",
    "global_scope" or "facet_filter" with its value, and none of these
    three; an option named "field" replaces the resolved field name, which
    is there otherwise. The facet filter is put beside the terms clause,
    "global" is set exactly when the global scope given is true, and the
    options come back without the three special ones. *)
Theorem terms_options_passthrough :
  forall (H : Haystack) (alias name : string) (options : pydict),
    NoDup (map fst options) ->
    exists clause terms,
      terms_facet_options alias name (PDict options)
      = Ok (PDict clause, PDict (strip options))
      /\ dict_get clause "terms" = Some (PDict terms)
      /\ (forall k,
            dict_get terms k
            = if special_option k then None
              else match dict_get options k with
                   | Some v => Some v
                   | None =>
                       if String.eqb k "field"
                       then Some (PStr (get_facet_fieldname alias name))
                       else None
                   end)
      /\ dict_get clause "facet_filter" = dict_get options "facet_filter"
      /\ dict_get clause "global"
         = (if truthy (dict_get_default options "global_scope" (PBool false))
            then Some (PBool true) else None)
      /\ (forall k, dict_get (strip options) k
                    = if special_option k then None else dict_get options k).
Proof.
  intros H alias name options ND.
  rewrite terms_facet_options_dict. unfold terms_clause.
  assert (T : forall k,
             dict_get (dict_update
                         [("field", PStr (get_facet_fieldname alias name))]
                         (strip options)) k
             = if special_option k then None
               else match dict_get options k with
                    | Some v => Some v
                    | None =>
                        if String.eqb k "field"
                        then Some (PStr (get_facet_fieldname alias name))
                        else None
                    end).
  { intro k. rewrite dict_get_update by now apply strip_NoDup.
    rewrite strip_get by assumption.
    destruct (special_option k) eqn:S; [|reflexivity].
    cbn [dict_get]. destruct (String.eqb_spec k "field") as [->|]; [|reflexivity].
    discriminate S. }
  unfold dict_get_default.
  rewrite !(dict_get_del_neq options "global_scope" "order") by discriminate.
  rewrite !(dict_get_del_neq _ "facet_filter" "global_scope") by discriminate.
  rewrite !(dict_get_del_neq options "facet_filter" "order") by discriminate.
  destruct (dict_get options "global_scope") as [g|];
    [destruct (truthy g)|cbn [truthy]];
    destruct (dict_get options "facet_filter") as [f|];
    do 2 eexists; (split; [reflexivity|]); (split; [reflexivity|]);
    (split; [exact T|]); (split; [reflexivity|]); (split; [reflexivity|]);
    intro k; now apply strip_get.
Qed.

Lemma terms_options_passthrough_witness :
  exists clause terms,
    @terms_facet_options Reference.haystack "default" "author"
      (PDict [("order", PStr "reverse_count"); ("size", PInt 10);
              ("global_scope", PBool true)])
    = Ok (PDict clause, PDict [("size", PInt 10)])
    /\ dict_get clause "terms" = Some (PDict terms)
    /\ dict_get terms "size" = Some (PInt 10)
    /\ dict_get terms "order" = None.
Proof.
  destruct (terms_options_passthrough Reference.haystack "default" "author"
              [("order", PStr "reverse_count"); ("size", PInt 10);
               ("global_scope", PBool true)])
    as (clause & terms & E & T & L & _).
  - repeat constructor; cbn; intuition discriminate.
  - exists clause, terms. split; [exact E|]. split; [exact T|].
    split; [apply (L "size") | apply (L "order")].
Defined.

Section TermsLoop.
Context {H : Haystack}.

Lemma terms_clauses_keys alias l : map fst (terms_clauses alias l) = map fst l.
Proof.
  unfold terms_clauses. rewrite map_map. apply map_ext. now intros [n o].
Qed.

Lemma facets_of_keys l : map fst (facets_of l) = map fst l.
Proof.
  unfold facets_of. rewrite map_map. apply map_ext. now intros [n o].
Qed.

Lemma stripped_keys l : map fst (stripped l) = map fst l.
Proof.
  unfold stripped. rewrite map_map. apply map_ext. now intros [n o].
Qed.

(** The loop over facets with distinct names: a clause for each, in the
    order of the facets, and the options of each without the special
    ones. *)
Lemma terms_loop alias rest : forall pre,
  NoDup (map fst (pre ++ rest)) ->
  rfold (terms_step alias) (facets_of rest)
    (terms_clauses alias pre, (facets_of (stripped pre) ++ facets_of rest)%list)
  = Ok (terms_clauses alias (pre ++ rest), facets_of (stripped (pre ++ rest))).
Proof.
  induction rest as [|[n o] rest IH]; intros pre ND.
  - cbn [facets_of map rfold]. now rewrite !app_nil_r.
  - assert (Nin : ~ In n (map fst pre)).
    { rewrite map_app in ND. cbn [map fst] in ND.
      apply NoDup_remove_2 in ND. intro I. apply ND. apply in_or_app. now left. }
    cbn [facets_of map rfold]. unfold terms_step at 1.
    rewrite terms_facet_options_dict. cbn [rbind].
    rewrite dict_set_absent by now rewrite terms_clauses_keys.
    rewrite dict_set_middle by now rewrite facets_of_keys, stripped_keys.
    specialize (IH (pre ++ [(n, o)])%list).
    rewrite <- app_assoc in IH. cbn [app] in IH. specialize (IH ND).
    unfold terms_clauses, stripped, facets_of in *.
    rewrite !map_app in IH. cbn [map] in IH.
    rewrite <- !app_assoc in IH. cbn [app] in IH.
    rewrite !map_app. cbn [map]. exact IH.
Qed.

Lemma build_terms_facets alias l :
  NoDup (map fst l) ->
  _build_search_kwargs_facets alias (Some (facets_of l)) None None
  = Ok (("aggs", terms_clauses alias l), Some (facets_of (stripped l))).
Proof.
  intro ND. unfold _build_search_kwargs_facets.
  change (rfold _ (facets_of l) ([], facets_of l))
    with (rfold (terms_step alias) (facets_of l)
            (terms_clauses alias [],
             (facets_of (stripped []) ++ facets_of l)%list)).
  rewrite (terms_loop alias l [] ND). reflexivity.
Qed.

End TermsLoop.

(** X5. Terms facets with distinct names, each with a dictionary of
    options, always compile: the aggregations hold one clause per facet,
    in the order of the facets. The call takes the options "order",
    "global_scope" and "facet_filter" out of the caller's facets, so that
    compiling the same facets a second time gives, for every facet, a
    clause without ordering metadata, global scope and facet filter, and
    leaves the facets as they then are. *)
Theorem terms_facets_compile_once :
  forall (H : Haystack) (alias : string) (l : list (string * pydict)),
    NoDup (map fst l) ->
    Forall (fun facet => NoDup (map fst (snd facet))) l ->
    _build_search_kwargs_facets alias (Some (facets_of l)) None None
    = Ok (("aggs", terms_clauses alias l), Some (facets_of (stripped l)))
    /\ map fst (terms_clauses alias l) = map fst l
    /\ exists again,
         _build_search_kwargs_facets alias (Some (facets_of (stripped l)))
           None None
         = Ok (("aggs", again), Some (facets_of (stripped l)))
         /\ forall name options,
              In (name, options) l ->
              dict_get again name
              = Some (PDict [
                  ("meta", PDict [("_type", PStr "terms")]);
                  ("terms", PDict (dict_update
                     [("field", PStr (get_facet_fieldname alias name))]
                     (strip options)))]).
Proof.
  intros H alias l ND OD.
  split; [now apply build_terms_facets|].
  split; [apply terms_clauses_keys|].
  assert (SS : stripped (stripped l) = stripped l).
  { clear ND. induction l as [|[n o] l IH]; [reflexivity|].
    inversion OD as [|x y O1 O2]; subst. cbn [stripped map].
    rewrite strip_strip by exact O1. f_equal. now apply IH. }
  exists (terms_clauses alias (stripped l)). split.
  - rewrite build_terms_facets by now rewrite stripped_keys.
    now rewrite SS.
  - intros name options I.
    rewrite <- terms_clause_strip
      by (rewrite Forall_forall in OD; exact (OD _ I)).
    apply In_dict_get.
    + now rewrite terms_clauses_keys, stripped_keys.
    + unfold terms_clauses, stripped. rewrite map_map.
      apply in_map_iff. exists (name, options). now split.
Qed.

Lemma terms_facets_compile_once_witness :
  exists again,
    @_build_search_kwargs_facets Reference.haystack "default"
      (Some [("author", PDict [("size", PInt 10)])]) None None
    = Ok (("aggs", again), Some [("author", PDict [("size", PInt 10)])])
    /\ dict_get again "author"
       = Some (PDict [("meta", PDict [("_type", PStr "terms")]);
                      ("terms", PDict [("field", PStr "author_exact");
                                       ("size", PInt 10)])]).
Proof.
  destruct (terms_facets_compile_once Reference.haystack "default"
              [("author", [("order", PStr "reverse_count"); ("size", PInt 10)])])
    as (_ & _ & again & E & L).
  - repeat constructor; cbn; intuition discriminate.
  - repeat constructor; cbn; intuition discriminate.
  - exists again. split; [exact E|].
    apply (L "author" [("order", PStr "reverse_count"); ("size", PInt 10)]).
    now left.
Defined.

Section Tags.
Context {H : Haystack}.

Lemma dict_set_all_tagged d k v :
  all_tagged d -> tagged v -> all_tagged (dict_set d k v).
Proof.
  unfold all_tagged. intros A T.
  induction d as [|[k0 v0] d IH]; cbn.
  - constructor; [exact T | constructor].
  - inversion A as [|x l A0 A1]; subst.
    destruct (String.eqb k k0); constructor; auto.
Qed.

Lemma terms_clause_tagged alias name options :
  tagged (terms_clause alias name options).
Proof.
  unfold terms_clause, tagged.
  destruct (dict_get options "order");
    destruct (truthy _);
    destruct (dict_get (dict_del _ "global_scope") "facet_filter");
    eexists; exists "terms"; (split; [reflexivity|]);
    (split; [reflexivity | auto]).
Qed.

Lemma terms_facet_options_tagged alias name extra_options clause left :
  terms_facet_options alias name extra_options = Ok (clause, left) ->
  tagged clause.
Proof.
  destruct extra_options as [| | | | s |l|l|d|];
    try (rewrite terms_facet_options_dict; intros [= <- _];
         apply terms_clause_tagged);
    unfold terms_facet_options; cbn [py_in rbind]; try discriminate.
  - destruct (String.index 0 "order" s); cbn; discriminate.
  - destruct (existsb _ l); cbn; discriminate.
  - destruct (existsb _ l); cbn; discriminate.
Qed.

Lemma date_facet_options_tagged name value clause :
  date_facet_options name value = Ok clause -> tagged clause.
Proof.
  unfold date_facet_options.
  destruct (date_facet_interval value); cbn [rbind]; [|discriminate].
  destruct (py_get value "start_date" PNone); cbn [rbind]; [|discriminate].
  destruct (py_get value "end_date" PNone); cbn [rbind]; [|discriminate].
  intros [= <-]. eexists. exists "date_histogram".
  split; [reflexivity|]. split; [reflexivity | auto].
Qed.

Lemma query_facet_options_tagged value : tagged (query_facet_options value).
Proof.
  eexists. exists "query". split; [reflexivity|]. split; [reflexivity | auto].
Qed.

Lemma terms_loop_tagged alias items : forall result items' result' items'',
  rfold (terms_step alias) items (result, items') = Ok (result', items'') ->
  all_tagged result -> all_tagged result'.
Proof.
  induction items as [|[n eo] items IH]; intros r i r' i'; cbn [rfold].
  - now intros [= <- _].
  - unfold terms_step at 1.
    destruct (terms_facet_options alias n eo) as [[c l]|e] eqn:T;
      cbn [rbind]; [|discriminate].
    intros R A. eapply IH; [exact R|].
    apply dict_set_all_tagged; [exact A|].
    now apply terms_facet_options_tagged in T.
Qed.

Lemma date_loop_tagged items : forall result result',
  rfold date_step items result = Ok result' ->
  all_tagged result -> all_tagged result'.
Proof.
  induction items as [|[n v] items IH]; intros r r'; cbn [rfold].
  - now intros [= <-].
  - unfold date_step at 1.
    destruct (date_facet_options n v) as [c|e] eqn:D; cbn [rbind]; [|discriminate].
    intros R A. eapply IH; [exact R|].
    apply dict_set_all_tagged; [exact A|].
    now apply date_facet_options_tagged in D.
Qed.

Lemma query_loop_tagged items : forall result,
  all_tagged result -> all_tagged (fold_left query_step items result).
Proof.
  induction items as [|[n v] items IH]; intros r A; cbn [fold_left]; [exact A|].
  apply IH. unfold query_step. apply dict_set_all_tagged; [exact A|].
  apply query_facet_options_tagged.
Qed.

(** The three loops of the compiler, one after the other. *)
Lemma build_facets_loops alias facets date_facets query_facets aggs left :
  _build_search_kwargs_facets alias facets date_facets query_facets
  = Ok (("aggs", aggs), left) ->
  exists r1 r2,
    match facets with
    | Some items =>
        exists items',
          rfold (terms_step alias) items ([], items) = Ok (r1, items')
    | None => r1 = []
    end
    /\ match date_facets with
       | Some items => rfold date_step items r1 = Ok r2
       | None => r2 = r1
       end
    /\ aggs = match query_facets with
              | Some items => fold_left query_step items r2
              | None => r2
              end.
Proof.
  unfold _build_search_kwargs_facets. intro E.
  destruct facets as [items|].
  - change (rfold _ items ([], items))
      with (rfold (terms_step alias) items ([], items)) in E.
    destruct (rfold (terms_step alias) items ([], items)) as [[r1 i1]|e];
      cbn [rbind] in E; [|discriminate].
    destruct date_facets as [ds|].
    + change (rfold _ ds r1) with (rfold date_step ds r1) in E.
      destruct (rfold date_step ds r1) as [r2|e] eqn:D;
        cbn [rbind] in E; [|discriminate].
      injection E as <- _. exists r1, r2. split; [now exists i1|]. now split.
    + cbn [rbind] in E. injection E as <- _. exists r1, r1.
      split; [now exists i1|]. now split.
  - cbn [rbind] in E. destruct date_facets as [ds|].
    + change (rfold _ ds []) with (rfold date_step ds []) in E.
      destruct (rfold date_step ds []) as [r2|e] eqn:D;
        cbn [rbind] in E; [|discriminate].
      injection E as <- _. exists [], r2. now repeat split.
    + cbn [rbind] in E. injection E as <- _. exists [], []. now repeat split.
Qed.

Lemma build_facets_all_tagged alias facets date_facets query_facets aggs left :
  _build_search_kwargs_facets alias facets date_facets query_facets
  = Ok (("aggs", aggs), left) ->
  all_tagged aggs.
Proof.
  intro E. destruct (build_facets_loops _ _ _ _ _ _ E) as (r1 & r2 & T & D & A).
  subst aggs.
  assert (A1 : all_tagged r1).
  { destruct facets as [items|]; [|subst r1; constructor].
    destruct T as [items' T].
    eapply terms_loop_tagged; [exact T | constructor]. }
  assert (A2 : all_tagged r2).
  { destruct date_facets as [items|]; [|now subst r2].
    eapply date_loop_tagged; [exact D | exact A1]. }
  destruct query_facets as [items|]; [|exact A2].
  now apply query_loop_tagged.
Qed.

(** An entry that echoes the metadata of a tagged clause is not passed
    over by the decoder. *)
Lemma tagged_not_ignored clause info :
  tagged clause ->
  getitem info "meta" = getitem clause "meta" ->
  contribution_of info <> Ok Nothing.
Proof.
  intros (meta & tag & M & T & Cases) Echo. unfold contribution_of.
  rewrite Echo, M. cbn [rbind]. rewrite T. cbn [rbind].
  destruct Cases as [-> | [-> | ->]]; cbn [eq_str String.eqb Ascii.eqb Bool.eqb].
  - destruct (getitem info "buckets") as [b|]; cbn [rbind]; [|discriminate].
    destruct (py_iter b) as [l|]; cbn [rbind]; [|discriminate].
    destruct (rmap Decoder.terms_pair l) as [pairs|]; cbn [rbind]; [|discriminate].
    destruct (py_in "order" meta) as [[|]|]; cbn [rbind]; try discriminate.
    destruct (getitem meta "order") as [o|]; cbn [rbind]; [|discriminate].
    destruct (eq_str o "reverse_count"); [|discriminate].
    destruct (py_sorted _ pairs); cbn [rbind]; discriminate.
  - destruct (getitem info "buckets") as [b|]; cbn [rbind]; [|discriminate].
    destruct (py_iter b) as [l|]; cbn [rbind]; [|discriminate].
    destruct (rmap Decoder.date_pair l); cbn [rbind]; discriminate.
  - destruct (getitem info "doc_count"); cbn [rbind]; discriminate.
Qed.

Lemma query_loop_other n items : forall result,
  ~ In n (map fst items) ->
  dict_get (fold_left query_step items result) n = dict_get result n.
Proof.
  induction items as [|[k v] items IH]; intros r N; cbn [fold_left];
    [reflexivity|].
  cbn [map fst In] in N. rewrite IH by tauto.
  unfold query_step. apply dict_get_set_neq. intro; subst; tauto.
Qed.

Lemma date_loop_other n items : forall result result',
  rfold date_step items result = Ok result' ->
  ~ In n (map fst items) ->
  dict_get result' n = dict_get result n.
Proof.
  induction items as [|[k v] items IH]; intros r r'; cbn [rfold].
  - now intros [= <-].
  - unfold date_step at 1.
    destruct (date_facet_options k v) as [c|e]; cbn [rbind]; [|discriminate].
    intros R N. cbn [map fst In] in N.
    rewrite (IH _ _ R) by tauto.
    apply dict_get_set_neq. intro; subst; tauto.
Qed.

End Tags.

(** X6. Every aggregation clause that [_build_search_kwargs_facets]
    returns carries in its metadata one of the type tags "terms",
    "date_histogram" and "query", whatever the facets given. A response
    entry that echoes the metadata of such a clause is therefore never one
    of those that the decoder passes over. *)
Theorem compiled_clauses_tagged :
  forall (H : Haystack) (alias : string) (facets date_facets : option pydict)
         (query_facets : option (list (string * pyval)))
         (aggs : pydict) (left : option pydict),
    _build_search_kwargs_facets alias facets date_facets query_facets
    = Ok (("aggs", aggs), left) ->
    forall name clause,
      dict_get aggs name = Some clause ->
      tagged clause
      /\ forall info,
           getitem info "meta" = getitem clause "meta" ->
           contribution_of info <> Ok Nothing.
Proof.
  intros H alias facets date_facets query_facets aggs left E name clause G.
  assert (T : tagged clause).
  { pose proof (build_facets_all_tagged _ _ _ _ _ _ E) as A.
    unfold all_tagged in A. rewrite Forall_forall in A.
    exact (A _ (dict_get_In _ _ _ G)). }
  split; [exact T|]. intros info Echo. now apply tagged_not_ignored with clause.
Qed.

Lemma compiled_clauses_tagged_witness :
  tagged (PDict [("meta", PDict [("_type", PStr "query")]);
                 ("filter", PDict [("query_string",
                                    PDict [("query", PStr "foo:bar")])])]).
Proof.
  apply (compiled_clauses_tagged Reference.haystack "default"
           (Some [("author", PDict [("order", PStr "reverse_count")])])
           (Some [("pub_date", date_facet PNone PNone "day" 2)])
           (Some [("recent", PStr "foo:bar")])
           [("author", terms_clause "default" "author"
                         [("order", PStr "reverse_count")]);
            ("pub_date", date_histogram_clause "pub_date" PNone PNone "2d");
            ("recent", query_facet_options (PStr "foo:bar"))]
           (Some [("author", PDict [])]) eq_refl "recent").
  reflexivity.
Defined.

(** X7. Facets of different kinds share the names of the aggregations: a
    query facet takes the place of any terms or date facet of its name,
    and a date facet the place of a terms facet of its name. Of several
    query facets with one name (they come as a list of pairs), the last
    one stays. *)
Theorem later_facets_override :
  forall (H : Haystack) (alias : string) (facets date_facets : option pydict)
         (query_facets : option (list (string * pyval)))
         (aggs : pydict) (left : option pydict),
    _build_search_kwargs_facets alias facets date_facets query_facets
    = Ok (("aggs", aggs), left) ->
    (forall before name value after,
       query_facets = Some (before ++ (name, value) :: after)%list ->
       ~ In name (map fst after) ->
       dict_get aggs name = Some (query_facet_options value))
    /\ (forall before name value after,
          date_facets = Some (before ++ (name, value) :: after)%list ->
          ~ In name (map fst after) ->
          (forall items, query_facets = Some items -> ~ In name (map fst items)) ->
          exists clause,
            date_facet_options name value = Ok clause
            /\ dict_get aggs name = Some clause).
Proof.
  intros H alias facets date_facets query_facets aggs left E.
  destruct (build_facets_loops _ _ _ _ _ _ E) as (r1 & r2 & _ & D & A).
  subst aggs.
  split.
  - intros before name value after -> N.
    rewrite fold_left_app. cbn [fold_left].
    rewrite query_loop_other by exact N.
    unfold query_step at 1. apply dict_get_set_eq.
  - intros before name value after -> N Q.
    rewrite rfold_app in D.
    destruct (rfold date_step before r1) as [r|e]; cbn [rbind rfold] in D;
      [|discriminate].
    unfold date_step at 1 in D.
    destruct (date_facet_options name value) as [clause|e]; cbn [rbind] in D;
      [|discriminate].
    exists clause. split; [reflexivity|].
    assert (G : dict_get r2 name = Some clause).
    { rewrite (date_loop_other name after _ _ D N). apply dict_get_set_eq. }
    destruct query_facets as [items|]; [|exact G].
    rewrite query_loop_other by now apply Q. exact G.
Qed.

Lemma later_facets_override_witness :
  dict_get
    [("published", query_facet_options (PStr "published:[* TO NOW]"))]
    "published"
  = Some (query_facet_options (PStr "published:[* TO NOW]")).
Proof.
  destruct (later_facets_override Reference.haystack "default"
              (Some [("published", PDict [("size", PInt 5)])])
              (Some [("published", date_facet PNone PNone "month" 1)])
              (Some [("published", PStr "published:[* TO NOW]")])
              [("published", query_facet_options (PStr "published:[* TO NOW]"))]
              (Some [("published", PDict [("size", PInt 5)])]) eq_refl)
    as (Q & _).
  apply (Q [] "published" (PStr "published:[* TO NOW]") []); [reflexivity|].
  intros [].
Defined.

(** X8. A date facet whose details have no string under "gap_by" (the key
    is missing, or holds something else) is refused with an
    [AttributeError]: no unit is assumed. The error ends the whole
    compilation, whatever terms facets were compiled before it and
    whatever facets would follow. *)
Theorem date_facet_needs_unit :
  forall (H : Haystack) (alias name : string) (details : pydict),
    (forall unit, dict_get details "gap_by" <> Some (PStr unit)) ->
    date_facet_interval (PDict details) = Raise (AttributeError "lower")
    /\ forall (l : list (string * pydict)) (rest : pydict)
              (query_facets : option (list (string * pyval))),
         NoDup (map fst l) ->
         _build_search_kwargs_facets alias (Some (facets_of l))
           (Some ((name, PDict details) :: rest)) query_facets
         = Raise (AttributeError "lower").
Proof.
  intros H alias name details N.
  assert (I : date_facet_interval (PDict details) = Raise (AttributeError "lower")).
  { unfold date_facet_interval. cbn [py_get rbind]. unfold dict_get_default.
    destruct (dict_get details "gap_by") as [[]|]; try reflexivity.
    now contradiction (N s). }
  split; [exact I|]. intros l rest query_facets ND.
  unfold _build_search_kwargs_facets.
  change (rfold _ (facets_of l) ([], facets_of l))
    with (rfold (terms_step alias) (facets_of l)
            (terms_clauses alias [],
             (facets_of (stripped []) ++ facets_of l)%list)).
  rewrite (terms_loop alias l [] ND). cbn [rbind app rfold].
  unfold date_facet_options. rewrite I. reflexivity.
Qed.

Lemma date_facet_needs_unit_witness :
  @_build_search_kwargs_facets Reference.haystack "default"
    (Some [("author", PDict [("size", PInt 10)])])
    (Some [("pub_date", PDict [("start_date", PNone); ("end_date", PNone);
                               ("gap_amount", PInt 2)])])
    None
  = Raise (AttributeError "lower").
Proof.
  destruct (date_facet_needs_unit Reference.haystack "default" "pub_date"
              [("start_date", PNone); ("end_date", PNone);
               ("gap_amount", PInt 2)]) as (_ & B).
  - intros unit. discriminate.
  - apply (B [("author", [("size", PInt 10)])] [] None).
    repeat constructor. intros [].
Defined.

(** Setting the options of a field in facets with distinct names. *)
Lemma add_field_facet_typed (l : list (string * pydict)) field options :
  NoDup (map fst l) ->
  exists l',
    SearchQuery.add_field_facet (facets_of l) field options = facets_of l'
    /\ NoDup (map fst l')
    /\ In (field, options) l'
    /\ (forall n o, n <> field -> In (n, o) l -> In (n, o) l')
    /\ (forall n o, In (n, o) l' -> (n, o) = (field, options) \/ In (n, o) l).
Proof.
  unfold SearchQuery.add_field_facet.
  induction l as [|[k v] l IH]; intro ND.
  - exists [(field, options)]. cbn.
    split; [reflexivity|]. split; [constructor; [intros [] | constructor]|].
    split; [now left|]. split; [intros n o _ []|].
    intros n o [I|[]]. now left.
  - cbn [map fst] in ND. inversion ND as [|x y Nin ND']; subst.
    cbn [facets_of map dict_set].
    destruct (String.eqb_spec field k) as [->|N].
    + exists ((k, options) :: l). cbn [facets_of map fst]. repeat split; auto.
      * now left.
      * intros n o Nk [[= -> ->]|I]; [contradiction | now right].
      * intros n o [[= -> ->]|I]; [now left | right; now right].
    + destruct (IH ND') as (l' & E & ND1 & I1 & K1 & B1).
      exists ((k, v) :: l'). cbn [facets_of map fst].
      fold (facets_of l). rewrite E. fold (facets_of l').
      repeat split; auto.
      * constructor; [|exact ND1].
        intro I. apply in_map_iff in I. destruct I as ([n o] & <- & I).
        cbn [fst] in *. destruct (B1 _ _ I) as [[= -> ->]|I2]; [contradiction|].
        apply Nin. change n with (fst (n, o)). now apply in_map.
      * now right.
      * intros n o Nf [[= -> ->]|I]; [now left | right; now apply K1].
      * intros n o [[= -> ->]|I]; [right; now left|].
        destruct (B1 _ _ I) as [?|?]; [now left | right; now right].
Qed.

(** X19. The options given to [add_field_facet] for a field take the
    place of whatever options the field had: compiled, the facet of that
    field is the clause of the new options alone, and the facets of the
    other fields are the clauses they had. *)
Theorem add_field_facet_replaces :
  forall (H : Haystack) (alias : string) (l : list (string * pydict))
         (field : string) (options : pydict),
    NoDup (map fst l) ->
    exists aggs left,
      _build_search_kwargs_facets alias
        (Some (SearchQuery.add_field_facet (facets_of l) field options))
        None None
      = Ok (("aggs", aggs), left)
      /\ dict_get aggs field = Some (terms_clause alias field options)
      /\ (forall n o,
            In (n, o) l -> n <> field ->
            dict_get aggs n = Some (terms_clause alias n o))
      /\ (forall n, dict_get aggs n <> None ->
                    n = field \/ In n (map fst l)).
Proof.
  intros H alias l field options ND.
  destruct (add_field_facet_typed l field options ND)
    as (l' & E & ND' & I & K & B).
  rewrite E, (build_terms_facets alias l' ND').
  do 2 eexists. split; [reflexivity|].
  assert (L : forall n o, In (n, o) l' ->
                dict_get (terms_clauses alias l') n
                = Some (terms_clause alias n o)).
  { intros n o In'. apply In_dict_get.
    - now rewrite terms_clauses_keys.
    - unfold terms_clauses. apply in_map_iff. exists (n, o). now split. }
  split; [now apply L|]. split.
  - intros n o In0 N. apply L. now apply K.
  - intros n G.
    destruct (dict_get (terms_clauses alias l') n) as [c|] eqn:D;
      [|contradiction].
    apply dict_get_In in D. unfold terms_clauses in D.
    apply in_map_iff in D. destruct D as ([n' o'] & [= -> _] & In').
    destruct (B _ _ In') as [[= -> _]|In0]; [now left|].
    right. change n with (fst (n, o')). now apply in_map.
Qed.

Lemma add_field_facet_replaces_witness :
  exists aggs left,
    @_build_search_kwargs_facets Reference.haystack "default"
      (Some (SearchQuery.add_field_facet
               [("author", PDict [("order", PStr "reverse_count")]);
                ("editor", PDict [])]
               "author" [("size", PInt 3)]))
      None None
    = Ok (("aggs", aggs), left)
    /\ dict_get aggs "author"
       = Some (PDict [("meta", PDict [("_type", PStr "terms")]);
                      ("terms", PDict [("field", PStr "author_exact");
                                       ("size", PInt 3)])]).
Proof.
  destruct (add_field_facet_replaces Reference.haystack "default"
              [("author", [("order", PStr "reverse_count")]); ("editor", [])]
              "author" [("size", PInt 3)])
    as (aggs & left & E & A & _).
  - repeat constructor; cbn; intuition discriminate.
  - exists aggs, left. split; [exact E | exact A].
Defined.

End FacetsSpec.

(** ** Relevance clause *)

Module QuerySpec.
Import Kwargs Compiler Notions.

(** X3. Only "*:*" becomes match_all. Any other value, the empty string
    included, is sent as it is in a text query: the clause is a
    query_string whose query is the value itself, over the content field,
    with the default operator and the fuzziness of the configuration,
    wildcards analysed and phrase queries generated, and nothing else. So
    two query strings that compile to the same relevance clause are the
    same. Combined with one or more filters, the relevance clause is the
    [must] of the bool clause, unchanged. *)
Theorem relevance_clause_faithful :
  forall (C : Constants) (content_field : string),
    (forall q1 q2,
       _build_search_kwargs_default content_field q1
       = _build_search_kwargs_default content_field q2 ->
       q1 = q2)
    /\ (forall q,
          dict_get (_build_search_kwargs_default content_field q) "query"
          = Some (PDict [("match_all", PDict [])])
          <-> q = PStr "*:*")
    /\ (forall q,
          q <> PStr "*:*" ->
          exists text,
            _build_search_kwargs_default content_field q
            = [("query", PDict [("query_string", PDict text)])]
            /\ dict_get text "query" = Some q
            /\ dict_get text "default_field" = Some (PStr content_field)
            /\ dict_get text "default_operator" = Some DEFAULT_OPERATOR
            /\ dict_get text "fuzziness" = Some FUZZINESS
            /\ dict_get text "analyze_wildcard" = Some (PBool true)
            /\ dict_get text "auto_generate_phrase_queries" = Some (PBool true)
            /\ length text = 6%nat)
    /\ (forall q f fs,
          exists relevance clause,
            dict_get (_build_search_kwargs_default content_field q) "query"
            = Some relevance
            /\ _build_search_kwargs_query (f :: fs) relevance
               = Ok (PDict [("bool", PDict clause)])
            /\ dict_get clause "must" = Some relevance).
Proof.
  intros C content_field.
  assert (Sentinel : forall q, eq_str q "*:*" = true -> q = PStr "*:*").
  { intros q E. destruct q; try discriminate E. cbn in E.
    apply String.eqb_eq in E. now subst. }
  split; [|split; [|split]].
  - intros q1 q2. unfold _build_search_kwargs_default.
    destruct (eq_str q1 "*:*") eqn:E1, (eq_str q2 "*:*") eqn:E2;
      try discriminate.
    + intros _. now rewrite (Sentinel _ E1), (Sentinel _ E2).
    + now intros [= ->].
  - intro q. unfold _build_search_kwargs_default.
    destruct (eq_str q "*:*") eqn:E.
    + split; [intros _; now apply Sentinel | reflexivity].
    + split; [discriminate|]. intros ->. discriminate E.
  - intros q N. unfold _build_search_kwargs_default.
    destruct (eq_str q "*:*") eqn:E; [now contradiction N; apply Sentinel|].
    eexists. split; [reflexivity|]. repeat split.
  - intros q f fs.
    destruct (eq_str q "*:*") eqn:E;
      destruct (Z.of_nat (S (length fs)) =? 1) eqn:L;
      unfold _build_search_kwargs_default; rewrite E;
      eexists; eexists; (split; [reflexivity|]);
      unfold _build_search_kwargs_query; cbn [truthy length]; rewrite L;
      (split; [reflexivity | reflexivity]).
Qed.

Lemma relevance_clause_faithful_witness :
  (exists text,
     @_build_search_kwargs_default constants "text" (PStr "django rocks")
     = [("query", PDict [("query_string", PDict text)])]
     /\ dict_get text "query" = Some (PStr "django rocks")
     /\ dict_get text "default_field" = Some (PStr "text")
     /\ dict_get text "default_operator" = Some (PStr "AND"))
  /\ (exists text,
        @_build_search_kwargs_default constants "text" (PStr EmptyString)
        = [("query", PDict [("query_string", PDict text)])]
        /\ dict_get text "query" = Some (PStr EmptyString)).
Proof.
  destruct (relevance_clause_faithful constants "text") as (_ & _ & T & _).
  split.
  - destruct (T (PStr "django rocks")) as (text & E & Q & F & O & _);
      [discriminate|].
    exists text. split; [exact E|]. split; [exact Q|]. split; [exact F | exact O].
  - destruct (T (PStr EmptyString)) as (text & E & Q & _); [discriminate|].
    exists text. split; [exact E | exact Q].
Defined.

End QuerySpec.

(** ** More on the response decoder *)

Module DecoderMore.
Import Decoder Vocabulary Notions DictFacts DictMore DecoderSpec.

Section Shape.
Context {H : Haystack}.

(** The loop keeps the three mappings. *)
Lemma decode_loop_shape items : forall f d q facets,
  decode_loop items (three f d q) = Ok facets ->
  exists f' d' q', facets = three f' d' q'.
Proof.
  unfold decode_loop.
  induction items as [|[n info] items IH]; intros f d q facets; cbn [rfold].
  - intros [= <-]. now exists f, d, q.
  - rewrite decode_facet_contribution.
    destruct (contribution_of info) as [c|e]; cbn [rbind]; [|discriminate].
    destruct c; cbn [store]; apply IH.
Qed.


End Shape.

(** X9. A response entry tagged "query" is decoded to its document count,
    stored as it is under the facet's name in the "queries" mapping. *)
Theorem query_facet_count :
  forall (H : Haystack) (name : string) (raw : pyval) (items : pydict)
         (info : pyval) (m : pydict) (doc_count hl rc dp gs : pyval)
         (res : pydict),
    getitem raw "aggregations" = Ok (PDict items) ->
    NoDup (map fst items) ->
    In (name, info) items ->
    (forall e, In e items -> fst e <> name -> decodes e) ->
    getitem info "meta" = Ok (PDict m) ->
    dict_get m "_type" = Some (PStr "query") ->
    getitem info "doc_count" = Ok doc_count ->
    base_process_results raw hl rc dp gs = Ok (PDict res) ->
    exists f d q,
      _process_results raw hl rc dp gs
      = Ok (PDict (dict_set res "facets" (PDict (three f d q))))
      /\ dict_get q name = Some doc_count.
Proof.
  intros H name raw items info m doc_count hl rc dp gs res A ND I O M T C R.
  assert (K : contribution_of info = Ok (Query doc_count)).
  { unfold contribution_of. rewrite M. cbn [rbind getitem]. rewrite T.
    cbn [rbind eq_str String.eqb Ascii.eqb Bool.eqb]. now rewrite C. }
  pose proof (all_decode items name info _ O ND I K) as D.
  destruct (process_results_entries raw items hl rc dp gs res A ND D R)
    as (f & d & q & P & L).
  exists f, d, q. split; [exact P|]. exact (L name info _ I K).
Qed.

Lemma query_facet_count_witness :
  exists f d q,
    @process Reference.haystack mixed_response
    = Ok (PDict (dict_set [("results", PList []); ("hits", PInt 0);
                           ("facets", PDict []); ("spelling_suggestion", PNone)]
                   "facets" (PDict (three f d q))))
    /\ dict_get q "recent" = Some (PInt 4).
Proof.
  apply (query_facet_count Reference.haystack "recent" mixed_response
           [("author", PDict [
               ("meta", PDict [("_type", PStr "terms")]);
               ("buckets", PList [bucket (PStr "A") (PInt 5)])]);
            ("price", PDict [
               ("meta", PDict [("_type", PStr "range")]);
               ("buckets", PList [bucket (PStr "*-10") (PInt 3)])]);
            ("recent", PDict [
               ("meta", PDict [("_type", PStr "query")]);
               ("doc_count", PInt 4)])]
           (PDict [("meta", PDict [("_type", PStr "query")]);
                   ("doc_count", PInt 4)])
           [("_type", PStr "query")] (PInt 4)
           (PBool false) PNone PNone (PBool false)
           [("results", PList []); ("hits", PInt 0);
            ("facets", PDict []); ("spelling_suggestion", PNone)]).
  - reflexivity.
  - repeat constructor; cbn; intuition discriminate.
  - right. right. left. reflexivity.
  - intros e [<-|[<-|[<-|[]]]] N; try (now contradiction N);
      eexists; reflexivity.
  - reflexivity.
  - reflexivity.
  - reflexivity.
  - reflexivity.
Defined.

(** X10. The decoder changes nothing of what the generic decoder returns
    but the member "facets", which it replaces: every other member of the
    result is the one of the generic result. An error of the generic
    decoder is the error of the whole, whatever the aggregations are. *)
Theorem only_facets_replaced :
  forall (H : Haystack) (raw hl rc dp gs : pyval),
    (forall e,
       base_process_results raw hl rc dp gs = Raise e ->
       _process_results raw hl rc dp gs = Raise e)
    /\ (forall res out,
          base_process_results raw hl rc dp gs = Ok (PDict res) ->
          _process_results raw hl rc dp gs = Ok out ->
          exists facets,
            decode_facets raw = Ok facets
            /\ out = PDict (dict_set res "facets" (PDict facets))
            /\ getitem out "facets" = Ok (PDict facets)
            /\ forall k, k <> "facets" -> getitem out k = getitem (PDict res) k).
Proof.
  intros H raw hl rc dp gs. split.
  - intros e B. unfold _process_results. now rewrite B.
  - intros res out B. unfold _process_results. rewrite B. cbn [rbind].
    destruct (decode_facets raw) as [facets|e]; cbn [rbind setitem];
      [|discriminate].
    intros [= <-]. exists facets. split; [reflexivity|]. split; [reflexivity|].
    split.
    + apply getitem_dict, dict_get_set_eq.
    + intros k N. cbn [getitem]. now rewrite dict_get_set_neq.
Qed.

Lemma only_facets_replaced_witness :
  getitem
    (PDict [("results", PList []); ("hits", PInt 3); ("facets", PDict []);
            ("spelling_suggestion", PNone)])
    "hits"
  = getitem
      (PDict [("results", PList []); ("hits", PInt 3); ("facets", PDict []);
              ("spelling_suggestion", PNone)])
      "hits".
Proof.
  destruct (only_facets_replaced Reference.haystack
              (PDict [("hits", PDict [("total", PInt 3)])])
              (PBool false) PNone PNone (PBool false)) as (_ & P).
  destruct (P [("results", PList []); ("hits", PInt 3); ("facets", PDict []);
               ("spelling_suggestion", PNone)]
              (PDict [("results", PList []); ("hits", PInt 3);
                      ("facets", PDict []); ("spelling_suggestion", PNone)])
              eq_refl eq_refl) as (facets & _ & _ & _ & K).
  apply K. discriminate.
Defined.

(** X11. Whenever the raw response has an "aggregations" member and the
    decoder returns, the facets of the result are the three mappings
    "fields", "dates" and "queries", in this order and nothing else, also
    when the aggregations are empty. *)
Theorem aggregations_give_three_mappings :
  forall (H : Haystack) (raw hl rc dp gs out : pyval),
    py_in "aggregations" raw = Ok true ->
    _process_results raw hl rc dp gs = Ok out ->
    exists f d q, getitem out "facets" = Ok (PDict (three f d q)).
Proof.
  intros H raw hl rc dp gs out A. unfold _process_results.
  destruct (base_process_results raw hl rc dp gs) as [results|e];
    cbn [rbind]; [|discriminate].
  unfold decode_facets. rewrite A. cbn [rbind].
  destruct (getitem raw "aggregations") as [aggs|e]; cbn [rbind]; [|discriminate].
  destruct (py_items aggs) as [items|e]; cbn [rbind]; [|discriminate].
  destruct (rfold _ items _) as [facets|e] eqn:R; cbn [rbind]; [|discriminate].
  destruct (decode_loop_shape items [] [] [] facets R) as (f & d & q & ->).
  destruct results; cbn [setitem]; try discriminate.
  intros [= <-]. exists f, d, q. apply getitem_dict, dict_get_set_eq.
Qed.

Lemma aggregations_give_three_mappings_witness :
  exists f d q,
    getitem
      (PDict [("results", PList []); ("hits", PInt 0);
              ("facets", PDict (three [] [] []));
              ("spelling_suggestion", PNone)])
      "facets"
    = Ok (PDict (three f d q)).
Proof.
  apply (aggregations_give_three_mappings Reference.haystack
           (PDict [("aggregations", PDict [])])
           (PBool false) PNone PNone (PBool false)); reflexivity.
Defined.



End DecoderMore.

(** ** More on the similarity query and the bulk deletion *)

Module BackendMore.
Import Backend Vocabulary Notions MonadM.

(** X13. What [clear] does to the backend object: it never changes the
    connection alias, the index name or the silent-fail flag; a partial
    clear changes no field at all; a full clear whose deletion of the
    index returned resets the cached state (the backend is no longer set
    up, its mapping is empty and it has no content field), and this is the
    only case in which a field changes; a full clear whose deletion failed
    leaves the fields as they were, also when the failure is swallowed. *)
Theorem clear_backend_fields :
  forall (H : Haystack) (E : Engine) (models : option (list model))
         (commit : bool) (w : world),
    let after := fst (clear models commit w) in
    connection_alias (self after) = connection_alias (self w)
    /\ index_name (self after) = index_name (self w)
    /\ silently_fail (self after) = silently_fail (self w)
    /\ (self after = self w
        \/ (models = None
            /\ self after = reset (self w)
            /\ snd (clear models commit w) = Ok tt
            /\ exists s r,
                 es_indices_delete (index_name (self w)) [404] (conn w)
                 = (s, Ok r)))
    /\ (forall ms, models = Some ms -> self after = self w)
    /\ (forall s e,
          es_indices_delete (index_name (self w)) [404] (conn w)
          = (s, Raise e) ->
          self after = self w)
    /\ (forall s r,
          models = None ->
          es_indices_delete (index_name (self w)) [404] (conn w)
          = (s, Ok r) ->
          clear models commit w
          = (mkWorld E (mkBackend (connection_alias (self w))
                          (index_name (self w)) (silently_fail (self w))
                          false [] PNone)
               s (logged w),
             Ok tt)
          /\ setup_complete (self after) = false
          /\ existing_mapping (self after) = []
          /\ content_field_name (self after) = PNone).
Proof.
  intros H E models commit w after. subst after.
  unfold clear, try_except, bind, get_self, request, set_self, ret, raise,
    log_error.
  destruct models as [ms|]; cbn [self conn logged].
  - destruct (es_bulk _ _ _ (conn w)) as [s1 [r1|e1]]; cbn [self conn logged].
    + destruct (es_indices_refresh _ s1) as [s2 [r2|e2]]; cbn [self conn logged fst];
        [repeat split; auto; intros; discriminate|].
      destruct (is_TransportError e2); cbn;
        [destruct (silently_fail (self w)) eqn:F; cbn|]; repeat split; auto;
        intros; discriminate.
    + destruct (is_TransportError e1); cbn;
        [destruct (silently_fail (self w)) eqn:F; cbn|]; repeat split; auto;
        intros; discriminate.
  - destruct (es_indices_delete _ _ (conn w)) as [s [r|e]];
      cbn [self conn logged fst snd].
    + split; [reflexivity|]. split; [reflexivity|]. split; [reflexivity|].
      split; [right; repeat split; now exists s, r|].
      split; [intros ms [=]|]. split; [intros s0 e0 [=]|].
      intros s0 r0 _ [= <- _]. repeat split.
    + destruct (is_TransportError e); cbn;
        [destruct (silently_fail (self w)) eqn:F; cbn|];
        (split; [reflexivity|]); (split; [reflexivity|]);
        (split; [auto|]); (split; [auto|]); (split; [intros ms [=]|]);
        (split; [auto|]); intros s0 r0 _ [=].
Qed.

Lemma clear_backend_fields_witness :
  self (fst (@clear Reference.haystack Reference.engine None true
               (stocked_world true)))
  = mkBackend "default" "haystack" true false [] PNone
  /\ self (fst (@clear Reference.haystack Reference.engine
                  (Some ["core.mockmodel"]) true (stocked_world true)))
     = Reference.default_backend true
  /\ self (fst (@clear Reference.haystack Reference.flaky None true
                  (flaky_world true 0)))
     = Reference.default_backend true.
Proof.
  split; [|split].
  - destruct (clear_backend_fields Reference.haystack Reference.engine None
                true (stocked_world true)) as (_ & _ & _ & _ & _ & _ & R).
    destruct (R [] (PDict [("acknowledged", PBool true)]) eq_refl eq_refl)
      as (C & _).
    exact (f_equal (fun r => self (fst r)) C).
  - destruct (clear_backend_fields Reference.haystack Reference.engine
                (Some ["core.mockmodel"]) true (stocked_world true))
      as (_ & _ & _ & _ & P & _).
    exact (P ["core.mockmodel"] eq_refl).
  - destruct (clear_backend_fields Reference.haystack Reference.flaky None
                true (flaky_world true 0)) as (_ & _ & _ & _ & _ & D & _).
    exact (D O Reference.unavailable eq_refl).
Defined.

(** X14. The outcomes of [clear] are three. It returns with the log as it
    was; or it returns with one more record in the log, in which case the
    backend fails silently and the record is the one of a transport
    failure; or it raises with the log as it was, in which case the error
    is not a transport failure or the backend does not fail silently. So
    a backend that fails silently never raises a transport failure from
    [clear], and one that does not never writes to the log. *)
Theorem clear_outcomes :
  forall (H : Haystack) (E : Engine) (models : option (list model))
         (commit : bool) (w : world),
    let after := fst (clear models commit w) in
    let outcome := snd (clear models commit w) in
    (outcome = Ok tt /\ logged after = logged w)
    \/ (outcome = Ok tt
        /\ silently_fail (self w) = true
        /\ exists e,
             is_TransportError e = true
             /\ logged after = (logged w ++ [clear_failure models e])%list)
    \/ (exists e,
          outcome = Raise e
          /\ logged after = logged w
          /\ (is_TransportError e = false \/ silently_fail (self w) = false)).
Proof.
  intros H E models commit w after outcome. subst after outcome.
  unfold clear, try_except, bind, get_self, request, set_self, ret, raise,
    log_error.
  destruct models as [ms|]; cbn [self conn logged].
  - destruct (es_bulk _ _ _ (conn w)) as [s1 [r1|e1]]; cbn [self conn logged].
    + destruct (es_indices_refresh _ s1) as [s2 [r2|e2]];
        cbn [self conn logged fst snd]; [now left|].
      destruct (is_TransportError e2) eqn:T; cbn;
        [destruct (silently_fail (self w)) eqn:F; cbn|].
      * right. left. repeat split. now exists e2.
      * right. right. exists e2. auto.
      * right. right. exists e2. auto.
    + destruct (is_TransportError e1) eqn:T; cbn;
        [destruct (silently_fail (self w)) eqn:F; cbn|].
      * right. left. repeat split. now exists e1.
      * right. right. exists e1. auto.
      * right. right. exists e1. auto.
  - destruct (es_indices_delete _ _ (conn w)) as [s [r|e]];
      cbn [self conn logged fst snd]; [now left|].
    destruct (is_TransportError e) eqn:T; cbn;
      [destruct (silently_fail (self w)) eqn:F; cbn|].
    + right. left. repeat split. now exists e.
    + right. right. exists e. auto.
    + right. right. exists e. auto.
Qed.

Section Paths.
Context {H : Haystack} {E : Engine}.

Lemma clear_models_other_error (models : list model) (commit : bool)
    (w : world) (s : server) (e : exn) :
  es_bulk
    (delete_actions (es_scan (clear_query models) (index_name (self w))
                       "modelresult"))
    (index_name (self w)) "modelresult" (conn w)
  = (s, Raise e) ->
  is_TransportError e = false ->
  clear (Some models) commit w = (with_conn w s, Raise e).
Proof.
  intros B T.
  unfold clear, try_except, bind, get_self at 1, request.
  unfold clear_query in B. rewrite B. rewrite T. reflexivity.
Qed.

End Paths.

(** X15. An error of a partial clear that is not a transport failure is
    raised to the caller also when the backend fails silently, and nothing
    is logged. Such is the [KeyError] of a scrolled document that has no
    "_id". *)
Theorem clear_other_errors_escape :
  forall (H : Haystack) (E : Engine) (models : list model) (commit : bool)
         (w : world) (s : server) (e : exn),
    es_bulk
      (delete_actions (es_scan (clear_query models) (index_name (self w))
                         "modelresult"))
      (index_name (self w)) "modelresult" (conn w)
    = (s, Raise e) ->
    is_TransportError e = false ->
    clear (Some models) commit w = (with_conn w s, Raise e)
    /\ forall (g : generator server) (s0 s1 : server) (doc : pyval)
              (before after : list pyval),
         g s0 = (s1, Ok (before ++ doc :: after)%list) ->
         Forall (fun d => exists i id,
                            d = PDict i /\ dict_get i "_id" = Some id) before ->
         (exists i, doc = PDict i /\ dict_get i "_id" = None) ->
         delete_actions g s0 = (s1, Raise (KeyError "_id")).
Proof.
  intros H E models commit w s e B T.
  split; [now apply clear_models_other_error|].
  intros g s0 s1 doc before after G Fb (i & -> & N).
  unfold delete_actions. rewrite G. cbn [rbind]. f_equal.
  clear G. induction before as [|b before IH]; cbn [app rmap].
  - cbn [getitem]. now rewrite N.
  - inversion Fb as [|x l (ib & id & -> & Hb) Fb']; subst.
    cbn [getitem]. rewrite Hb. cbn [rbind].
    now rewrite (IH Fb').
Qed.

Lemma clear_other_errors_escape_witness :
  @clear Reference.haystack Reference.engine (Some ["core.mockmodel"]) true
    (broken_world true)
  = (broken_world true, Raise (KeyError "_id")).
Proof.
  apply (clear_other_errors_escape Reference.haystack Reference.engine
           ["core.mockmodel"] true (broken_world true)
           [("haystack", [PDict [("django_ct", PStr "core.mockmodel")]])]
           (KeyError "_id")); reflexivity.
Defined.

(** X16. The offsets of [more_like_this] become the search parameters
    "from_" (the start offset) and "size" (end minus start). An end offset
    given without a start offset fails with a [TypeError] before any
    search is sent: the error is raised also when the backend fails
    silently, and the engine is as the setup left it. *)
Theorem similarity_offsets :
  forall (H : Haystack) (E : Engine),
    (forall start_offset end_offset : Z,
       mlt_params (Some start_offset) (Some end_offset)
       = Ok [("from_", PInt start_offset);
             ("size", PInt (end_offset - start_offset))])
    /\ (forall start_offset : Z,
          mlt_params (Some start_offset) None
          = Ok [("from_", PInt start_offset)])
    /\ mlt_params None None = Ok []
    /\ (forall model_instance additional (end_offset : Z) models limit
               result_class (w w1 : world) field_name,
          ensure_setup w = (w1, Ok tt) ->
          get_content_field (connection_alias (self w1))
            (concrete_model model_instance) = Ok field_name ->
          exists what,
            more_like_this model_instance additional None (Some end_offset)
              models limit result_class w
            = (w1, Raise (TypeError what))).
Proof.
  intros H E. split; [reflexivity|]. split; [reflexivity|].
  split; [reflexivity|].
  intros model_instance additional end_offset models limit result_class
         w w1 field_name S F.
  eexists. unfold more_like_this, bind at 1. rewrite S.
  unfold bind at 1, get_self at 1, bind at 1, lift at 1. rewrite F.
  unfold bind at 1, lift at 1. cbn [mlt_params]. reflexivity.
Qed.

Lemma similarity_offsets_witness :
  exists what,
    @more_like_this Reference.haystack Reference.flaky ("core.mockmodel", 1)
      None None (Some 10) None None PNone (flaky_world true 0)
    = (flaky_world true 0, Raise (TypeError what)).
Proof.
  destruct (similarity_offsets Reference.haystack Reference.flaky)
    as (_ & _ & _ & T).
  apply (T ("core.mockmodel", 1) None 10 None None PNone
           (flaky_world true 0) (flaky_world true 0) "text"); reflexivity.
Defined.

(** X17. A similarity query whose search returns: the engine receives one
    search, on the index of the backend and the document type
    "modelresult", with the body of the similarity query, the source
    requested and the offsets as parameters; the result is what
    [_process_results] makes of the raw response; the fields of the
    backend stay as the setup left them and nothing is logged. *)
Theorem similarity_search_returns :
  forall (H : Haystack) (E : Engine) (model_instance : instance)
         (additional : option string) (start_offset end_offset : Z)
         (models : option (list model)) (limit : option bool)
         (result_class : pyval) (w w1 : world) (field_name : string)
         (s : server) (raw_results : pyval),
    ensure_setup w = (w1, Ok tt) ->
    get_content_field (connection_alias (self w1))
      (concrete_model model_instance) = Ok field_name ->
    es_search
      (mlt_query field_name (get_identifier model_instance) additional models
         limit)
      (index_name (self w1)) "modelresult"
      [("_source", PBool true); ("from_", PInt start_offset);
       ("size", PInt (end_offset - start_offset))]
      (conn w1)
    = (s, Ok raw_results) ->
    more_like_this model_instance additional (Some start_offset)
      (Some end_offset) models limit result_class w
    = (mkWorld E (self w1) s (logged w1),
       Decoder._process_results raw_results (PBool false) result_class PNone
         (PBool false)).
Proof.
  intros H E model_instance additional start_offset end_offset models limit
         result_class w w1 field_name s raw_results S F R.
  unfold more_like_this, bind at 1. rewrite S.
  unfold bind at 1, get_self at 1, bind at 1, lift at 1. rewrite F.
  unfold bind at 1, lift at 1. cbn [mlt_params dict_set String.eqb Ascii.eqb
    Bool.eqb].
  unfold bind at 1, try_except, request. rewrite R. reflexivity.
Qed.

Lemma similarity_search_returns_witness :
  @more_like_this Reference.haystack Reference.engine ("core.mockmodel", 1)
    None (Some 0) (Some 10) None (Some false) PNone (stocked_world false)
  = (stocked_world false,
     Ok (PDict [("results", PList []); ("hits", PInt 2); ("facets", PDict []);
                ("spelling_suggestion", PNone)])).
Proof.
  apply (similarity_search_returns Reference.haystack Reference.engine
           ("core.mockmodel", 1) None 0 10 None (Some false) PNone
           (stocked_world false) (stocked_world false) "text"
           (conn (stocked_world false))
           (PDict [("hits", PDict [
              ("total", PInt 2);
              ("hits", PList [
                 PDict [("_id", PStr "core.mockmodel.1");
                        ("django_ct", PStr "core.mockmodel")];
                 PDict [("_id", PStr "core.other.1");
                        ("django_ct", PStr "core.other")]])])]));
    reflexivity.
Defined.

(** X18. A full clear whose deletion returned leaves the backend not set
    up, with an empty mapping and no content field, so that the next
    [more_like_this] runs [setup] again before it searches; on a backend
    that is set up, [more_like_this] does not run [setup]. *)
Theorem full_clear_forces_setup :
  forall (H : Haystack) (E : Engine) (commit : bool) (w : world)
         (s : server) (r : pyval),
    es_indices_delete (index_name (self w)) [404] (conn w) = (s, Ok r) ->
    let after := fst (clear None commit w) in
    setup_complete (self after) = false
    /\ existing_mapping (self after) = []
    /\ content_field_name (self after) = PNone
    /\ conn after = s
    /\ ensure_setup after = run_setup after
    /\ (forall w0 : world,
          setup_complete (self w0) = true -> ensure_setup w0 = (w0, Ok tt)).
Proof.
  intros H E commit w s r D after. subst after.
  unfold clear, try_except, bind, get_self, request, set_self.
  rewrite D. cbn [fst self conn logged].
  repeat split.
  intros w0 S. unfold ensure_setup, bind, get_self. now rewrite S.
Qed.

Lemma full_clear_forces_setup_witness :
  @ensure_setup Reference.engine
    (fst (@clear Reference.haystack Reference.engine None true
            (stocked_world false)))
  = @run_setup Reference.engine
      (fst (@clear Reference.haystack Reference.engine None true
              (stocked_world false))).
Proof.
  apply (full_clear_forces_setup Reference.haystack Reference.engine true
           (stocked_world false) [] (PDict [("acknowledged", PBool true)])).
  reflexivity.
Defined.

End BackendMore.
